(** * devops-ai-agent: a shallow embedding of [devops_agent.py]

    The agent is a command-line program: it loads (or interactively
    creates) a JSON configuration, talks to three OpenRouter endpoints
    and prints what it gets back.  The development below embeds

    - Python text and the [str] methods the agent calls,
    - the JSON-shaped values that travel through it,
    - a small state-and-exception monad over an explicit world
      (standard input, the configuration file, the remote API, the
      output and the list of requests sent),
    - every method of [DevOpsAIAgent] and [main],

    and then states and proves the properties of the specification. *)

From Stdlib Require Import String Ascii ZArith List Bool Lia DecimalString.
Import ListNotations.

Set Warnings "-register-all".
Local Open Scope list_scope.
Local Open Scope string_scope.

(** ** Text

    A Python [str] is a sequence of code points.  It is modelled as a
    [string]; the character [ascii_of_nat n] stands for code point [n],
    so the model covers text whose code points are below 256. *)

Module PyStr.

Definition nl : string := String (ascii_of_nat 10) "".

Definition code (c : ascii) : nat := nat_of_ascii c.

(** [str.isspace] on one character: TAB..CR, FS..US and space, NEL
    (0x85) and the no-break space (0xA0). *)
Definition isspace_char (c : ascii) : bool :=
  let n := code c in
  (((9 <=? n) && (n <=? 13)) || ((28 <=? n) && (n <=? 32))
   || (n =? 133) || (n =? 160))%nat.

Fixpoint lstrip (s : string) : string :=
  match s with
  | "" => ""
  | String c r => if isspace_char c then lstrip r else s
  end.

Fixpoint rstrip (s : string) : string :=
  match s with
  | "" => ""
  | String c r =>
      let r' := rstrip r in
      if isspace_char c && (r' =? "") then "" else String c r'
  end.

(** [s.strip()] *)
Definition strip (s : string) : string := rstrip (lstrip s).

(** [str.isdigit] on one character: the ASCII digits and the three
    superscript digits of Latin-1 (0xB2, 0xB3, 0xB9). *)
Definition isdigit_char (c : ascii) : bool :=
  let n := code c in
  (((48 <=? n) && (n <=? 57)) || (n =? 178) || (n =? 179) || (n =? 185))%nat.

Fixpoint all_chars (p : ascii -> bool) (s : string) : bool :=
  match s with
  | "" => true
  | String c r => p c && all_chars p r
  end.

(** [s.isdigit()]: at least one character and all of them digits. *)
Definition isdigit (s : string) : bool :=
  match s with
  | "" => false
  | _ => all_chars isdigit_char s
  end.

Definition decimal_value (c : ascii) : option Z :=
  let n := code c in
  if ((48 <=? n) && (n <=? 57))%nat then Some (Z.of_nat (n - 48)) else None.

(** The digits of an [int] literal, single underscores allowed between
    them. *)
Fixpoint int_digits (acc : Z) (s : string) : option Z :=
  match s with
  | "" => None
  | String c r =>
      match decimal_value c with
      | None => None
      | Some d =>
          let acc' := (10 * acc + d)%Z in
          match r with
          | "" => Some acc'
          | String "_" r' => int_digits acc' r'
          | _ => int_digits acc' r
          end
      end
  end.

(** The number of decimal digits of a string; signs, whitespace and
    underscores are not digits. *)
Fixpoint count_digits (s : string) : Z :=
  match s with
  | "" => 0
  | String c r =>
      ((match decimal_value c with Some _ => 1 | None => 0 end)
       + count_digits r)%Z
  end.

(** [sys.get_int_max_str_digits()], the interpreter's default. *)
Definition int_max_str_digits : Z := 4300.

(** [int(s)] for a string; [None] is [ValueError].  Surrounding
    whitespace and one sign are accepted.  A string of more than
    [int_max_str_digits] digits is refused whatever its value, leading
    zeros included. *)
Definition int (s : string) : option Z :=
  let t := strip s in
  if (int_max_str_digits <? count_digits t)%Z then None
  else
    match t with
    | String "+" r => int_digits 0 r
    | String "-" r => option_map Z.opp (int_digits 0 r)
    | _ => int_digits 0 t
    end.

(** [str(n)] for an [int]. *)
Definition of_int (n : Z) : string := NilZero.string_of_int (Z.to_int n).

(** [s.startswith(p)] *)
Definition startswith (p s : string) : bool := String.prefix p s.

(** [needle in hay] *)
Definition contains (needle hay : string) : Prop :=
  exists before after, hay = before ++ needle ++ after.

Fixpoint join (sep : string) (l : list string) : string :=
  match l with
  | [] => ""
  | [x] => x
  | x :: r => x ++ sep ++ join sep r
  end.

Fixpoint chars (s : string) : list string :=
  match s with
  | "" => []
  | String c r => String c "" :: chars r
  end.

End PyStr.

(** ** Values

    What [json.load] and [response.json()] produce and what the agent
    builds: [None], booleans, integers, text, lists and dictionaries.
    A dictionary keeps its items in insertion order.  Numbers with a
    fraction are not modelled. *)

Inductive pyval : Type :=
| PNone
| PBool (b : bool)
| PInt (n : Z)
| PStr (s : string)
| PList (items : list pyval)
| PDict (items : list (string * pyval)).

Definition type_name (v : pyval) : string :=
  match v with
  | PNone => "NoneType"
  | PBool _ => "bool"
  | PInt _ => "int"
  | PStr _ => "str"
  | PList _ => "list"
  | PDict _ => "dict"
  end.

(** [bool(v)] *)
Definition truthy (v : pyval) : bool :=
  match v with
  | PNone => false
  | PBool b => b
  | PInt n => negb (n =? 0)%Z
  | PStr s => negb (s =? "")
  | PList l => match l with [] => false | _ => true end
  | PDict d => match d with [] => false | _ => true end
  end.

Fixpoint lookup (k : string) (d : list (string * pyval)) : option pyval :=
  match d with
  | [] => None
  | (k', v) :: r => if k' =? k then Some v else lookup k r
  end.

(** [d[k] = v] on the items of a dictionary. *)
Fixpoint dict_set (k : string) (v : pyval) (d : list (string * pyval))
  : list (string * pyval) :=
  match d with
  | [] => [(k, v)]
  | (k', v') :: r => if k' =? k then (k, v) :: r else (k', v') :: dict_set k v r
  end.

(** ** Exceptions

    Only instances of [Exception] are modelled; [exn_msg] is [str(e)]. *)

Inductive exn_class : Type :=
| KeyError | IndexError | TypeError | AttributeError | ValueError
| FileNotFoundError
| OtherException (name : string).

Record exn : Type := mkExn { exn_cls : exn_class; exn_msg : string }.

(** [isinstance(e, ValueError)] *)
Definition is_ValueError (e : exn) : bool :=
  match exn_cls e with ValueError => true | _ => false end.

Inductive attempt (A : Type) : Type :=
| Ok (a : A)
| Err (e : exn).
Arguments Ok {A} a.
Arguments Err {A} e.

Definition not_subscriptable (v : pyval) : exn :=
  mkExn TypeError ("'" ++ type_name v ++ "' object is not subscriptable").

(** [v[k]] with a text key.  The message of a [KeyError] is the [repr]
    of the key; the keys the agent uses are plain identifiers. *)
Definition getitem (v : pyval) (k : string) : attempt pyval :=
  match v with
  | PDict d =>
      match lookup k d with
      | Some x => Ok x
      | None => Err (mkExn KeyError ("'" ++ k ++ "'"))
      end
  | PList _ =>
      Err (mkExn TypeError "list indices must be integers or slices, not str")
  | PStr _ => Err (mkExn TypeError "string indices must be integers, not 'str'")
  | _ => Err (not_subscriptable v)
  end.

(** [l[i]] on a list, negative indices counting from the end. *)
Definition list_index {A : Type} (l : list A) (i : Z) : option A :=
  let n := Z.of_nat (length l) in
  if ((0 <=? i) && (i <? n))%Z then nth_error l (Z.to_nat i)
  else if ((- n <=? i) && (i <? 0))%Z then nth_error l (Z.to_nat (n + i))
  else None.

(** [v[i]] with an integer index. *)
Definition getitem_int (v : pyval) (i : Z) : attempt pyval :=
  match v with
  | PList l =>
      match list_index l i with
      | Some x => Ok x
      | None => Err (mkExn IndexError "list index out of range")
      end
  | PStr s =>
      match list_index (PyStr.chars s) i with
      | Some c => Ok (PStr c)
      | None => Err (mkExn IndexError "string index out of range")
      end
  | PDict _ => Err (mkExn KeyError (PyStr.of_int i))
  | _ => Err (not_subscriptable v)
  end.

(** [v.get(k, default)] *)
Definition method_get (v : pyval) (k : string) (default : pyval)
  : attempt pyval :=
  match v with
  | PDict d =>
      match lookup k d with
      | Some x => Ok x
      | None => Ok default
      end
  | _ => Err (mkExn AttributeError
                ("'" ++ type_name v ++ "' object has no attribute 'get'"))
  end.

(** The items a [for] loop over [v] visits. *)
Definition iterate (v : pyval) : attempt (list pyval) :=
  match v with
  | PList l => Ok l
  | PDict d => Ok (map (fun kv => PStr (fst kv)) d)
  | PStr s => Ok (map PStr (PyStr.chars s))
  | _ => Err (mkExn TypeError ("'" ++ type_name v ++ "' object is not iterable"))
  end.

(** ** The world the agent runs in *)

(** A call of [requests.get] or [requests.post].  [req_bearer] is the
    value formatted into the [Authorization: Bearer ...] header (the
    [Content-Type] header is always [application/json]); [req_json] is
    the [json=] payload. *)
Record request : Type := mkRequest {
  req_method : string;
  req_url : string;
  req_bearer : pyval;
  req_json : option pyval;
  req_timeout : Z
}.

(** What the agent reads of a [requests.Response]: [json] is what
    [response.json()] returns or raises. *)
Record response : Type := mkResponse {
  status_code : Z;
  text : string;
  json : attempt pyval
}.

Inductive http_outcome : Type :=
| ConnectionFails (e : exn)
| Responds (r : response).

(** A formatted line: the literal parts of an f-string and the values
    interpolated into it. *)
Inductive piece : Type :=
| Lit (s : string)
| Fmt (v : pyval).

Inductive level : Type := INFO | WARNING | ERROR.

Inductive event : Type :=
| Stdout (line : list piece)     (* print(...) *)
| Prompt (line : list piece)     (* print(..., end='', flush=True) *)
| Log (l : level) (line : list piece)
| HelpText                       (* parser.print_help() *)
| UsageError (argument : string) (* the parser's usage and error lines *)
| Traceback (e : exn).           (* an exception nobody caught *)

(** [CONFIG_DIR] and [CONFIG_FILE]: no directory, a directory without
    the file, or the file with its text.  The model assumes that the
    directory can be created and that the file, once its directory
    exists, can be opened, read and written: a path that exists but
    cannot be opened (a directory of that name, missing permissions)
    is outside it. *)
Inductive config_store : Type :=
| NoDir
| NoFile
| File (content : string).

Record world : Type := mkWorld {
  stdin : list string;                        (* the lines not yet read *)
  store : config_store;
  files : string -> option (attempt string);  (* other paths: absent, or what reading gives *)
  http : nat -> request -> http_outcome;      (* the answer to the n-th request *)
  sent : list request;                        (* requests made so far *)
  out : list event                            (* output so far *)
}.

Definition set_stdin (l : list string) (w : world) : world :=
  mkWorld l (store w) (files w) (http w) (sent w) (out w).
Definition set_store (c : config_store) (w : world) : world :=
  mkWorld (stdin w) c (files w) (http w) (sent w) (out w).
Definition set_sent (l : list request) (w : world) : world :=
  mkWorld (stdin w) (store w) (files w) (http w) l (out w).
Definition set_out (l : list event) (w : world) : world :=
  mkWorld (stdin w) (store w) (files w) (http w) (sent w) l.

(** ** Computations: state, exceptions and loops that may not end *)

Inductive result (A : Type) : Type :=
| Ret (a : A) (w : world)
| Raise (e : exn) (w : world)
| Diverge.
Arguments Ret {A} a w.
Arguments Raise {A} e w.
Arguments Diverge {A}.

Definition M (A : Type) : Type := world -> result A.

Definition ret {A : Type} (a : A) : M A := fun w => Ret a w.

Definition bind {A B : Type} (m : M A) (k : A -> M B) : M B :=
  fun w =>
    match m w with
    | Ret a w' => k a w'
    | Raise e w' => Raise e w'
    | Diverge => Diverge
    end.

Declare Scope py_scope.
Delimit Scope py_scope with py.
Notation "x <- c1 ;; c2" := (bind c1 (fun x => c2))
  (at level 61, c1 at next level, right associativity) : py_scope.
Notation "c1 ;; c2" := (bind c1 (fun _ => c2))
  (at level 61, right associativity) : py_scope.
Local Open Scope py_scope.

Definition lift {A : Type} (a : attempt A) : M A :=
  fun w => match a with Ok x => Ret x w | Err e => Raise e w end.

(** [try: body / except <classes matching catches> as e: handler e] *)
Definition try_catch {A : Type} (catches : exn -> bool)
  (body : M A) (handler : exn -> M A) : M A :=
  fun w =>
    match body w with
    | Raise e w' => if catches e then handler e w' else Raise e w'
    | r => r
    end.

(** [try: body / except Exception as e: handler e] *)
Definition try_except {A : Type} (body : M A) (handler : exn -> M A) : M A :=
  try_catch (fun _ => true) body handler.

(** [while True:] around a body that ends by [break] ([inr]) or goes
    round again ([inl]).  Out of fuel, the loop is taken not to end. *)
Fixpoint loop {S A : Type} (fuel : nat) (body : S -> M (S + A)) (s : S)
  : M A :=
  fun w =>
    match fuel with
    | O => Diverge
    | Datatypes.S fuel' =>
        match body s w with
        | Ret (inl s') w' => loop fuel' body s' w'
        | Ret (inr a) w' => Ret a w'
        | Raise e w' => Raise e w'
        | Diverge => Diverge
        end
    end.

(** The loops of the agent read one line per round.  The model takes
    standard input to be a finite list of lines followed by the end of
    the input, where every round sees the same empty line: one round
    more than there are lines left decides whether the loop ends.  An
    input that never ends is outside the model. *)
Definition while_true {S A : Type} (body : S -> M (S + A)) (s : S) : M A :=
  fun w => loop (Datatypes.S (length (stdin w))) body s w.

Definition emit (e : event) : M unit :=
  fun w => Ret tt (set_out (out w ++ [e])%list w).

Definition print (line : list piece) : M unit := emit (Stdout line).
Definition prompt (line : list piece) : M unit := emit (Prompt line).
Definition log (l : level) (line : list piece) : M unit := emit (Log l line).

(** [sys.stdin.readline()]: the next line, or the empty string at the
    end of the input. *)
Definition readline : M string :=
  fun w =>
    match stdin w with
    | [] => Ret "" w
    | l :: rest => Ret l (set_stdin rest w)
    end.

(** [requests.get] and [requests.post]: the request goes out, then the
    remote end answers or the call raises. *)
Definition send (req : request) : M response :=
  fun w =>
    let w' := set_sent (sent w ++ [req])%list w in
    match http w (length (sent w)) req with
    | ConnectionFails e => Raise e w'
    | Responds r => Ret r w'
    end.

(** ** The agent *)

Definition API_BASE : string := "https://openrouter.ai/api/v1".

(** The list written out three times in [get_available_models]. *)
Definition fallback_models : list pyval :=
  map PStr
    [ "anthropic/claude-3-opus";
      "anthropic/claude-3-sonnet";
      "anthropic/claude-3-haiku";
      "google/gemini-pro";
      "google/gemini-1.5-pro";
      "openai/gpt-4o";
      "openai/gpt-4-turbo";
      "openai/gpt-3.5-turbo";
      "meta/llama-3-70b-instruct";
      "mistralai/mixtral-8x7b";
      "mistralai/mistral-7b-instruct" ].

Definition auth_key_request (api_key : pyval) : request :=
  mkRequest "GET" (API_BASE ++ "/auth/key") api_key None 10.

Definition models_request (api_key : pyval) : request :=
  mkRequest "GET" (API_BASE ++ "/models") api_key None 10.

Definition validate_openrouter_api_key (api_key : pyval) : M bool :=
  if negb (truthy api_key) then ret false
  else
    try_except
      (response <- send (auth_key_request api_key) ;;
       ret (status_code response =? 200)%Z)
      (fun e =>
         log ERROR [Lit "API key validation error: "; Fmt (PStr (exn_msg e))] ;;
         ret false).

(** The [for model in ...] loop of [get_available_models]. *)
Fixpoint collect_ids (items : list pyval) (available_models : list pyval)
  : attempt (list pyval) :=
  match items with
  | [] => Ok available_models
  | model :: rest =>
      match method_get model "id" PNone with
      | Err e => Err e
      | Ok model_id =>
          collect_ids rest
            (if truthy model_id
             then (available_models ++ [model_id])%list
             else available_models)
      end
  end.

(** The body of the [try] of [get_available_models]. *)
Definition get_available_models_try (api_key : pyval) : M (list pyval) :=
  response <- send (models_request api_key) ;;
  if (status_code response =? 200)%Z then
    models_data <- lift (json response) ;;
    data <- lift (method_get models_data "data" (PList [])) ;;
    items <- lift (iterate data) ;;
    available_models <- lift (collect_ids items []) ;;
    match available_models with
    | [] =>
        log WARNING [Lit "No models returned from API, using fallback list"] ;;
        ret fallback_models
    | _ => ret available_models
    end
  else
    log WARNING [Lit "Could not fetch models: ";
                 Fmt (PInt (status_code response))] ;;
    ret fallback_models.

Definition get_available_models (api_key : pyval) : M (list pyval) :=
  try_except (get_available_models_try api_key)
    (fun e =>
       log ERROR [Lit "Error fetching models: "; Fmt (PStr (exn_msg e))] ;;
       ret fallback_models).

Definition analyze_prompt (error_text : string) : string :=
  "You are a DevOps AI assistant. Analyze this error and provide a solution:"
  ++ PyStr.nl ++ PyStr.nl
  ++ "```" ++ PyStr.nl
  ++ error_text ++ PyStr.nl
  ++ "```" ++ PyStr.nl ++ PyStr.nl
  ++ "Please explain:" ++ PyStr.nl
  ++ "1. What is causing this error" ++ PyStr.nl
  ++ "2. How to fix it" ++ PyStr.nl
  ++ "3. Any preventive measures for the future" ++ PyStr.nl ++ PyStr.nl
  ++ "Format your response in markdown with clear steps." ++ PyStr.nl.

Definition install_prompt (tool_name : string) : string :=
  "You are a DevOps AI assistant. Provide detailed installation instructions for "
  ++ tool_name ++ "." ++ PyStr.nl ++ PyStr.nl
  ++ "Include:" ++ PyStr.nl
  ++ "1. Prerequisites" ++ PyStr.nl
  ++ "2. Step-by-step installation process" ++ PyStr.nl
  ++ "3. Basic configuration" ++ PyStr.nl
  ++ "4. How to verify the installation" ++ PyStr.nl
  ++ "5. Common issues and troubleshooting" ++ PyStr.nl ++ PyStr.nl
  ++ "Format your response in markdown with clear steps that can be executed in a terminal."
  ++ PyStr.nl.

Definition chat_request (api_key model : pyval) (prompt : string) : request :=
  mkRequest "POST" (API_BASE ++ "/chat/completions") api_key
    (Some (PDict [ ("model", model);
                   ("messages",
                    PList [PDict [ ("role", PStr "user");
                                   ("content", PStr prompt) ]]) ]))
    30.

(** [result['choices'][0]['message']['content']] *)
Definition first_choice_content (result : pyval) : attempt pyval :=
  match getitem result "choices" with
  | Err e => Err e
  | Ok choices =>
      match getitem_int choices 0 with
      | Err e => Err e
      | Ok choice =>
          match getitem choice "message" with
          | Err e => Err e
          | Ok message => getitem message "content"
          end
      end
  end.

(** [analyze_error] and [install_tool] have the same body after the
    prompt is built; they differ in the words [task] of their two error
    messages.  This is the body of their [try]. *)
Definition chat_try (config : pyval) (prompt : string) (task : string)
  : M pyval :=
  api_key <- lift (getitem config "api_key") ;;
  model <- lift (getitem config "model") ;;
  response <- send (chat_request api_key model prompt) ;;
  if (status_code response =? 200)%Z then
    result <- lift (json response) ;;
    assistant_message <- lift (first_choice_content result) ;;
    ret assistant_message
  else
    log ERROR [Lit "API error: "; Fmt (PInt (status_code response));
               Lit " - "; Fmt (PStr (text response))] ;;
    ret (PStr ("Error: Could not " ++ task ++ ". API responded with "
               ++ PyStr.of_int (status_code response) ++ ".")).

Definition chat (config : pyval) (prompt : string) (task : string) : M pyval :=
  try_except (chat_try config prompt task)
    (fun e =>
       log ERROR [Lit "Error calling OpenRouter API: "; Fmt (PStr (exn_msg e))] ;;
       ret (PStr ("Error: Could not " ++ task ++ " due to an API issue: "
                  ++ exn_msg e))).

Definition analyze_error (config : pyval) (error_text : string) : M pyval :=
  chat config (analyze_prompt error_text) "analyze the error".

Definition install_tool (config : pyval) (tool_name : string) : M pyval :=
  chat config (install_prompt tool_name) "get installation instructions".

(** *** Writing the configuration: [json.dump(config, f, indent=2)] *)

Module Json.

Definition dquote : string := String (ascii_of_nat 34) "".
Definition backslash : string := String (ascii_of_nat 92) "".

Definition hex_digit (n : nat) : string :=
  String (nth n [ "0"; "1"; "2"; "3"; "4"; "5"; "6"; "7"; "8"; "9";
                  "a"; "b"; "c"; "d"; "e"; "f" ]%char "0"%char) "".

(** The encoder escapes the quote, the backslash and everything
    outside the printable ASCII range. *)
Definition escape_char (c : ascii) : string :=
  let n := PyStr.code c in
  if (n =? 34)%nat then backslash ++ dquote
  else if (n =? 92)%nat then backslash ++ backslash
  else if (n =? 10)%nat then backslash ++ "n"
  else if (n =? 13)%nat then backslash ++ "r"
  else if (n =? 9)%nat then backslash ++ "t"
  else if (n =? 12)%nat then backslash ++ "f"
  else if (n =? 8)%nat then backslash ++ "b"
  else if ((32 <=? n) && (n <=? 126))%nat then String c ""
  else backslash ++ "u00" ++ hex_digit (n / 16) ++ hex_digit (n mod 16).

Fixpoint escape (s : string) : string :=
  match s with
  | "" => ""
  | String c r => escape_char c ++ escape r
  end.

Definition quoted (s : string) : string := dquote ++ escape s ++ dquote.

Fixpoint spaces (n : nat) : string :=
  match n with
  | O => ""
  | S n' => " " ++ spaces n'
  end.

(** A container that is not empty: its items one per line, two
    spaces deeper than the brackets. *)
Definition block (opening closing : string) (depth : nat)
  (items : list string) : string :=
  let inner := PyStr.nl ++ spaces (2 * S depth) in
  opening ++ inner ++ PyStr.join ("," ++ inner) items
  ++ PyStr.nl ++ spaces (2 * depth) ++ closing.

Fixpoint dumps_at (depth : nat) (v : pyval) : string :=
  match v with
  | PNone => "null"
  | PBool true => "true"
  | PBool false => "false"
  | PInt n => PyStr.of_int n
  | PStr s => quoted s
  | PList [] => "[]"
  | PList l => block "[" "]" depth (map (dumps_at (S depth)) l)
  | PDict [] => "{}"
  | PDict d =>
      block "{" "}" depth
        (map (fun kv => match kv with
                        | (k, x) => quoted k ++ ": " ++ dumps_at (S depth) x
                        end) d)
  end.

(** [json.dumps(v, indent=2)] *)
Definition dumps (v : pyval) : string := dumps_at 0 v.

End Json.

Definition CONFIG_FILE : string := "<home>/.devops-ai-agent/config.json".

(** [with open(CONFIG_FILE, 'w') as f: json.dump(config, f, indent=2)]:
    the file is created or truncated, then written.  Opening fails
    when the directory is missing; other failures of [open] and of the
    write are outside the model (see [config_store]). *)
Definition save_config (config : pyval) : M unit :=
  fun w =>
    match store w with
    | NoDir =>
        Raise (mkExn FileNotFoundError
                 ("[Errno 2] No such file or directory: '" ++ CONFIG_FILE ++ "'"))
              w
    | _ => Ret tt (set_store (File (Json.dumps config)) w)
    end.

(** *** The setup wizard *)

(** One round of the API key loop of [first_time_setup]. *)
Definition api_key_round (_ : unit) : M (unit + string) :=
  try_except
    (prompt [Lit PyStr.nl; Lit "Enter your OpenRouter API key: "] ;;
     line <- readline ;;
     let api_key := PyStr.strip line in
     print [Lit "Validating API key..."] ;;
     valid <- validate_openrouter_api_key (PStr api_key) ;;
     if valid then
       print [Lit "API key validation successful!"] ;;
       ret (inr api_key)
     else
       print [Lit "Invalid API key. Please try again."] ;;
       ret (inl tt))
    (fun e =>
       log ERROR [Lit "Exception during API key input: ";
                  Fmt (PStr (exn_msg e))] ;;
       print [Lit "Error during API key input. Please try again."] ;;
       ret (inl tt)).

(** [int(choice_input)] *)
Definition int_of (s : string) : attempt Z :=
  match PyStr.int s with
  | Some n => Ok n
  | None =>
      Err (mkExn ValueError
             ("invalid literal for int() with base 10: '" ++ s ++ "'"))
  end.

(** One round of the model selection loop, which [first_time_setup]
    and the [setup] branch of [execute_command] both contain; a round
    that ends the loop yields the value stored as [config['model']]. *)
Definition model_round (models : list pyval) (_ : unit) : M (unit + pyval) :=
  try_catch is_ValueError
    (prompt [Lit PyStr.nl;
             Lit "Select a model (number) or enter a custom model ID: "] ;;
     line <- readline ;;
     let choice_input := PyStr.strip line in
     if PyStr.isdigit choice_input then
       choice <- lift (int_of choice_input) ;;
       if ((1 <=? choice) && (choice <=? Z.of_nat (length models)))%Z then
         model <- lift (getitem_int (PList models) (choice - 1)) ;;
         print [Lit "Selected model: "; Fmt model] ;;
         ret (inr model)
       else
         print [Lit "Please enter a number between 1 and ";
                Fmt (PInt (Z.of_nat (length models))); Lit "."] ;;
         ret (inl tt)
     else
       print [Lit "Using custom model: "; Fmt (PStr choice_input)] ;;
       ret (inr (PStr choice_input)))
    (fun _ =>
       print [Lit "Please enter a valid number or model ID."] ;;
       ret (inl tt)).

(** [for i, model in enumerate(models, 1): print(f"{i}. {model}")] *)
Fixpoint print_models (i : Z) (models : list pyval) : M unit :=
  match models with
  | [] => ret tt
  | model :: rest =>
      print [Fmt (PInt i); Lit ". "; Fmt model] ;;
      print_models (i + 1) rest
  end.

(** Fetching, listing and choosing a model. *)
Definition select_model (api_key : pyval) : M pyval :=
  print [Lit PyStr.nl; Lit "Fetching available models..."] ;;
  models <- get_available_models api_key ;;
  print [Lit PyStr.nl; Lit "Available Models:"] ;;
  print_models 1 models ;;
  while_true (model_round models) tt.

Definition default_error_monitoring : pyval :=
  PDict [ ("enabled", PBool true);
          ("scan_interval", PInt 300);
          ("log_patterns",
           PList [ PStr "error:"; PStr "exception"; PStr "failure";
                   PStr "fatal"; PStr "critical" ]) ].

(** The end of both setup paths: the monitoring block, the file, the
    closing message. *)
Definition finish_setup (config : list (string * pyval)) : M pyval :=
  let config := dict_set "error_monitoring" default_error_monitoring config in
  print [Lit PyStr.nl; Lit "Saving configuration..."] ;;
  save_config (PDict config) ;;
  print [Lit PyStr.nl; Lit "Setup completed successfully!"] ;;
  ret (PDict config).

Definition rule : string := "==================================================".

Definition first_time_setup : M pyval :=
  print [Lit PyStr.nl; Lit rule] ;;
  print [Lit "Welcome to DevOps AI Agent Setup!"] ;;
  print [Lit rule] ;;
  let config := [] in
  print [Lit PyStr.nl;
         Lit "You will now be prompted to enter your OpenRouter API key."] ;;
  api_key <- while_true api_key_round tt ;;
  let config := dict_set "api_key" (PStr api_key) config in
  model <- select_model (PStr api_key) ;;
  let config := dict_set "model" model config in
  finish_setup config.

(** *** Monitoring and the command dispatcher *)

Definition start_monitoring (config : pyval) : M unit :=
  log INFO [Lit "Starting error monitoring..."] ;;
  monitoring_config <- lift (method_get config "error_monitoring" (PDict [])) ;;
  enabled <- lift (method_get monitoring_config "enabled" (PBool false)) ;;
  if negb (truthy enabled) then
    log INFO [Lit "Error monitoring is disabled in configuration."]
  else
    scan_interval <- lift (method_get monitoring_config "scan_interval" (PInt 300)) ;;
    log_patterns <-
      lift (method_get monitoring_config "log_patterns"
              (PList [PStr "error:"; PStr "exception"])) ;;
    log INFO [Lit "Monitoring active with scan interval: "; Fmt scan_interval;
              Lit "s"] ;;
    log INFO [Lit "Watching for patterns: "; Fmt log_patterns] ;;
    print [Lit "Error monitoring is now active in the background."] ;;
    print [Lit "Use 'devops-agent analyze-logs <log_file>' to manually analyze logs."].

(** What [parser.parse_args()] returns: the subcommand and the options
    of the subcommands, [None] where one was not given. *)
Record namespace : Type := mkNamespace {
  command : option string;
  arg_file : option string;
  arg_text : option string;
  arg_tool : option string;
  arg_api_key : option string;
  arg_model : option string
}.

(** [bool(x)] for an option of the command line. *)
Definition given (x : option string) : bool :=
  match x with
  | Some s => negb (s =? "")
  | None => false
  end.

Definition or_empty (x : option string) : string :=
  match x with Some s => s | None => "" end.

(** [os.path.exists(path)] *)
Definition path_exists (path : string) : M bool :=
  fun w => Ret (match files w path with Some _ => true | None => false end) w.

(** [with open(path, 'r') as f: f.read()] *)
Definition read_file (path : string) : M string :=
  fun w =>
    match files w path with
    | Some (Ok content) => Ret content w
    | Some (Err e) => Raise e w
    | None =>
        Raise (mkExn FileNotFoundError
                 ("[Errno 2] No such file or directory: '" ++ path ++ "'")) w
    end.

(** One round of the loop that reads the error text up to [DONE]. *)
Definition done_round (lines : list string) : M (list string + list string) :=
  raw <- readline ;;
  let line := PyStr.strip raw in
  if line =? "DONE" then ret (inr lines)
  else ret (inl (lines ++ [line])%list).

Definition read_error_text (args : namespace) : M string :=
  exists_ <- (if given (arg_file args)
              then path_exists (or_empty (arg_file args))
              else ret false) ;;
  if exists_ then read_file (or_empty (arg_file args))
  else if given (arg_text args) then ret (or_empty (arg_text args))
  else
    print [Lit "Enter the error text to analyze (type 'DONE' on a new line when finished):"] ;;
    lines <- while_true done_round [] ;;
    ret (PyStr.join PyStr.nl lines).

(** The [setup] branch when [args.api_key] is given. *)
Definition setup_from_arguments (args : namespace) : M pyval :=
  print [Lit "Using provided API key from command line"] ;;
  let config := [] in
  let config := dict_set "api_key" (PStr (or_empty (arg_api_key args))) config in
  model <-
    (if given (arg_model args) then
       let model := PStr (or_empty (arg_model args)) in
       print [Lit "Using provided model: "; Fmt model] ;;
       ret model
     else select_model (PStr (or_empty (arg_api_key args)))) ;;
  let config := dict_set "model" model config in
  finish_setup config.

(** [args.command == name] *)
Definition command_is (args : namespace) (name : string) : bool :=
  match command args with
  | Some c => c =? name
  | None => false
  end.

(** [execute_command]; the value returned is [self.config] afterwards. *)
Definition execute_command (config : pyval) (args : namespace) : M pyval :=
  if command_is args "analyze" then
    error_text <- read_error_text args ;;
    print [Lit PyStr.nl; Lit "Analyzing error..."; Lit PyStr.nl] ;;
    analysis <- analyze_error config error_text ;;
    print [Fmt analysis] ;;
    ret config
  else if command_is args "install" then
    tool_name <-
      (if given (arg_tool args) then ret (or_empty (arg_tool args))
       else
         prompt [Lit "Enter the name of the tool to install: "] ;;
         line <- readline ;;
         ret (PyStr.strip line)) ;;
    print [Lit PyStr.nl; Lit "Getting installation instructions for ";
           Fmt (PStr tool_name); Lit "..."; Lit PyStr.nl] ;;
    instructions <- install_tool config tool_name ;;
    print [Fmt instructions] ;;
    ret config
  else if command_is args "monitor" then
    start_monitoring config ;;
    ret config
  else if command_is args "setup" then
    if given (arg_api_key args) then setup_from_arguments args
    else first_time_setup
  else
    print [Lit "Unknown command. Use --help for available commands."] ;;
    ret config.

(** [if not CONFIG_DIR.exists(): CONFIG_DIR.mkdir(parents=True)];
    [mkdir] is taken to succeed (see [config_store]). *)
Definition ensure_config_dir : M unit :=
  fun w =>
    match store w with
    | NoDir => Ret tt (set_store NoFile w)
    | _ => Ret tt w
    end.

(** The text of [CONFIG_FILE], if the file exists; opening and
    reading an existing file are taken to succeed (see
    [config_store]). *)
Definition read_config_file : M (option string) :=
  fun w =>
    Ret (match store w with File content => Some content | _ => None end) w.

Definition subcommands : list string := ["analyze"; "install"; "monitor"; "setup"].

(** The end of a run of the program. *)
Inductive ending : Type :=
| Exits (status : Z) (w : world)
| NeverExits.

Inductive parsed : Type :=
| ParseExit (status : Z) (e : event)   (* [SystemExit] from the parser *)
| Parsed (args : namespace).

Section Process.

(** [json.load] on the text of the configuration file. *)
Variable json_loads : string -> attempt pyval.

(** [argparse] on a command line that starts with an option or with
    one of the registered subcommands. *)
Variable argparse : list string -> parsed.

Definition load_config : M pyval :=
  ensure_config_dir ;;
  file <- read_config_file ;;
  match file with
  | None =>
      log INFO [Lit "No configuration found. Running first-time setup..."] ;;
      first_time_setup
  | Some content =>
      try_except
        (config <- lift (json_loads content) ;;
         log INFO [Lit "Configuration loaded successfully."] ;;
         ret config)
        (fun e =>
           log ERROR [Lit "Error loading configuration: ";
                      Fmt (PStr (exn_msg e))] ;;
           log INFO [Lit "Running setup again to fix configuration..."] ;;
           first_time_setup)
  end.

(** [main] once the arguments are parsed. *)
Definition run (args : namespace) : M unit :=
  if negb (given (command args)) then emit HelpText
  else
    config <- load_config ;;       (* agent = DevOpsAIAgent() *)
    execute_command config args ;;
    ret tt.

(** The parser as [main] sets it up: no argument leaves [command]
    unset; a first argument that is neither an option nor a
    registered subcommand is an invalid choice, and the parser exits
    with status 2. *)
Definition parse_args (argv : list string) : parsed :=
  match argv with
  | [] => Parsed (mkNamespace None None None None None None)
  | a :: _ =>
      if PyStr.startswith "-" a || existsb (String.eqb a) subcommands
      then argparse argv
      else ParseExit 2 (UsageError a)
  end.

Definition main (argv : list string) (w : world) : ending :=
  match parse_args argv with
  | ParseExit status e => Exits status (set_out (out w ++ [e])%list w)
  | Parsed args =>
      match run args w with
      | Ret _ w' => Exits 0 w'
      | Raise e w' => Exits 1 (set_out (out w' ++ [Traceback e])%list w')
      | Diverge => NeverExits
      end
  end.

End Process.

(** ** Sample worlds, used to run the definitions on concrete inputs *)

Module Sample.

Definition answer (status : Z) (body : attempt pyval) : http_outcome :=
  Responds (mkResponse status "" body).

Definition not_json_error : exn :=
  mkExn ValueError "Expecting value: line 1 column 1 (char 0)".

Definition not_json : attempt pyval := Err not_json_error.

(** A remote end that answers every request the same way. *)
Definition always (o : http_outcome) : nat -> request -> http_outcome :=
  fun _ _ => o.

Definition world_of (input : list string) (c : config_store)
  (remote : nat -> request -> http_outcome) : world :=
  mkWorld input c (fun _ => None) remote [] [].

Definition config : pyval :=
  PDict [("api_key", PStr "sk-or-1"); ("model", PStr "openai/gpt-4o")].

Definition completion (content : pyval) : pyval :=
  PDict [("choices", PList [PDict [("message", PDict [("content", content)])]])].

(** The body of an answer of [/models]. *)
Definition listing (entries : list pyval) : pyval :=
  PDict [("data", PList entries)].

Definition entries : list pyval :=
  [ PDict [("id", PStr "a/one")];
    PDict [("name", PStr "no id")];
    PDict [("id", PStr "b/two")] ].

Definition five : list pyval :=
  [ PStr "m/one"; PStr "m/two"; PStr "m/three"; PStr "m/four"; PStr "m/five" ].

(** The superscript two, a digit for [isdigit] and not for [int]. *)
Definition superscript_two : string := String (ascii_of_nat 178) "".

Fixpoint zeros (n : nat) : string :=
  match n with
  | O => ""
  | S n' => String "0" (zeros n')
  end.

(** The number three written with 4401 digits: 4400 zeros, then 3. *)
Definition long_three : string := zeros (Z.to_nat 4400) ++ "3".

(** An answer with several choices. *)
Definition completions (contents : list pyval) : pyval :=
  PDict [("choices",
          PList (map (fun content =>
                        PDict [("message", PDict [("content", content)])])
                     contents))].

Definition timeout : exn :=
  mkExn (OtherException "ConnectTimeout") "Connection to openrouter.ai timed out.".

(** A parser for the two configuration files of the examples. *)
Definition json_loads (s : string) : attempt pyval :=
  if s =? "{}" then Ok (PDict [])
  else if s =? Json.dumps config then Ok config
  else not_json.

(** A stand-in for the option parser where it is not consulted. *)
Definition argparse (argv : list string) : parsed :=
  Parsed (mkNamespace None None None None None None).

End Sample.

(** ** The vocabulary of the properties *)

Definition select_prompt : event :=
  Prompt [Lit PyStr.nl;
          Lit "Select a model (number) or enter a custom model ID: "].

Definition say (e : event) (w : world) : world :=
  set_out (out w ++ [e])%list w.

(** The failure signal of the chat operations: a text that begins with
    [Error:] and carries [detail]. *)
Definition error_report (detail : string) (v : pyval) : Prop :=
  exists s, v = PStr s
            /\ PyStr.startswith "Error:" s = true
            /\ PyStr.contains detail s.

Definition returns {A : Type} (r : result A) (a : A) : Prop :=
  exists w', r = Ret a w'.

(** What the specification asks of a chat operation [op] whose [try]
    block is [body] and whose request is built by [req]. *)
Definition chat_contract (op body : M pyval) (config : pyval)
  (req : pyval -> pyval -> request) (w : world) : Prop :=
  (* it returns a value and never raises *)
  (exists v w', op w = Ret v w')
  (* on status 200, the content of the first choice as it is *)
  /\ (forall api_key model r result content,
        getitem config "api_key" = Ok api_key ->
        getitem config "model" = Ok model ->
        http w (length (sent w)) (req api_key model) = Responds r ->
        status_code r = 200%Z ->
        json r = Ok result ->
        first_choice_content result = Ok content ->
        returns (op w) content)
  (* on another status, an error text with the digits of the status *)
  /\ (forall api_key model r,
        getitem config "api_key" = Ok api_key ->
        getitem config "model" = Ok model ->
        http w (length (sent w)) (req api_key model) = Responds r ->
        status_code r <> 200%Z ->
        exists v, returns (op w) v
                  /\ error_report (PyStr.of_int (status_code r)) v)
  (* when the request raises, an error text with the message *)
  /\ (forall api_key model e,
        getitem config "api_key" = Ok api_key ->
        getitem config "model" = Ok model ->
        http w (length (sent w)) (req api_key model) = ConnectionFails e ->
        exists v, returns (op w) v /\ error_report (exn_msg e) v)
  (* and so for any exception raised anywhere in the try block *)
  /\ (forall e w1,
        body w = Raise e w1 ->
        exists v, returns (op w) v /\ error_report (exn_msg e) v).

(** The answer is an object whose [choices] is an array that begins
    with an object, whose [message] is an object that has [content]
    under [content]: the message content of the first choice, read off
    the shape of the answer. *)
Definition first_choice_has (result content : pyval) : Prop :=
  exists d choice others message,
    result = PDict d
    /\ lookup "choices" d = Some (PList (PDict choice :: others))
    /\ lookup "message" choice = Some (PDict message)
    /\ lookup "content" message = Some content.

(** What C1 asks of a chat operation [op] whose [try] block is [body]. *)
Definition chat_spec (op body : M pyval) (config : pyval)
  (req : pyval -> pyval -> request) (w : world) : Prop :=
  (* it returns a value and never raises *)
  (exists v w', op w = Ret v w')
  (* on status 200, the message content of the first choice as it is *)
  /\ (forall api_key model r result content,
        getitem config "api_key" = Ok api_key ->
        getitem config "model" = Ok model ->
        http w (length (sent w)) (req api_key model) = Responds r ->
        status_code r = 200%Z ->
        json r = Ok result ->
        first_choice_has result content ->
        returns (op w) content)
  (* on another status, an error text with the digits of the status *)
  /\ (forall api_key model r,
        getitem config "api_key" = Ok api_key ->
        getitem config "model" = Ok model ->
        http w (length (sent w)) (req api_key model) = Responds r ->
        status_code r <> 200%Z ->
        exists v, returns (op w) v
                  /\ error_report (PyStr.of_int (status_code r)) v)
  (* when the request raises, an error text with the message *)
  /\ (forall api_key model e,
        getitem config "api_key" = Ok api_key ->
        getitem config "model" = Ok model ->
        http w (length (sent w)) (req api_key model) = ConnectionFails e ->
        exists v, returns (op w) v /\ error_report (exn_msg e) v)
  (* and so for any exception raised anywhere in the try block *)
  /\ (forall e w1,
        body w = Raise e w1 ->
        exists v, returns (op w) v /\ error_report (exn_msg e) v).

Definition is_dict (v : pyval) : bool :=
  match v with PDict _ => true | _ => false end.

(** The identifier an entry of the data array carries, if any. *)
Definition entry_id (entry : pyval) : list pyval :=
  match entry with
  | PDict d =>
      match lookup "id" d with
      | Some model_id => if truthy model_id then [model_id] else []
      | None => []
      end
  | _ => []
  end.

(** The identifiers of a data array, in the order of the array. *)
Definition listed_ids (entries : list pyval) : list pyval :=
  flat_map entry_id entries.

(** The extraction of the [try] block, after the status check. *)
Definition extract_ids (r : response) : attempt (list pyval) :=
  match json r with
  | Err e => Err e
  | Ok models_data =>
      match method_get models_data "data" (PList []) with
      | Err e => Err e
      | Ok data =>
          match iterate data with
          | Err e => Err e
          | Ok items => collect_ids items []
          end
      end
  end.

(** Both entries are there: [config["api_key"]] and [config["model"]]
    evaluate. *)
Definition populated (config : pyval) : Prop :=
  exists api_key model,
    getitem config "api_key" = Ok api_key /\ getitem config "model" = Ok model.

(** ** What a computation leaves behind *)

(** [after r P]: the world the computation ends in, by a return or by
    an exception, satisfies [P]. *)
Definition after {A : Type} (r : result A) (P : world -> Prop) : Prop :=
  match r with
  | Ret _ w' => P w'
  | Raise _ w' => P w'
  | Diverge => True
  end.

(** [respects R m]: [m] takes every world to one related to it by [R]. *)
Definition respects {A : Type} (R : world -> world -> Prop) (m : M A) : Prop :=
  forall w, after (m w) (R w).

(** [same f]: the part [f] of the world is as it was. *)
Definition same {X : Type} (f : world -> X) (w w' : world) : Prop := f w' = f w.

(** The settings [start_monitoring] finds: the [error_monitoring]
    entry of a configuration, [{}] when there is none. *)
Definition monitoring_settings (d : list (string * pyval)) : pyval :=
  match lookup "error_monitoring" d with
  | Some settings => settings
  | None => PDict []
  end.

(** Whether the settings switch monitoring on. *)
Definition switched_on (settings : list (string * pyval)) : bool :=
  match lookup "enabled" settings with
  | Some v => truthy v
  | None => false
  end.

Definition or_default (x : option pyval) (default : pyval) : pyval :=
  match x with Some v => v | None => default end.

Definition no_attribute_get (v : pyval) : exn :=
  mkExn AttributeError ("'" ++ type_name v ++ "' object has no attribute 'get'").

Definition key_prompt : event :=
  Prompt [Lit PyStr.nl; Lit "Enter your OpenRouter API key: "].

(** The last request sent asked [/auth/key] about [key] and was
    answered with status 200. *)
Definition just_accepted (key : string) (w : world) : Prop :=
  exists before r,
    sent w = (before ++ [auth_key_request (PStr key)])%list
    /\ http w (length before) (auth_key_request (PStr key)) = Responds r
    /\ status_code r = 200%Z.

(** A line with nothing but whitespace. *)
Definition blank (line : string) : Prop := PyStr.strip line = "".

(** A line that does not end the error text. *)
Definition not_done (line : string) : Prop := PyStr.strip line <> "DONE".

(** [analyze] has neither a readable [--file] nor a [--text] and asks
    for the text on the standard input. *)
Definition asks_for_text (args : namespace) (w : world) : Prop :=
  (given (arg_file args) = false \/ files w (or_empty (arg_file args)) = None)
  /\ given (arg_text args) = false.

(** [gives c m]: when [m] returns, it returns [c]. *)
Definition gives {A : Type} (c : A) (m : M A) : Prop :=
  forall w, match m w with Ret b _ => b = c | _ => True end.

(** The three entries both setup paths write. *)
Definition fresh_configuration (api_key model : pyval) : pyval :=
  PDict [ ("api_key", api_key);
          ("model", model);
          ("error_monitoring", default_error_monitoring) ].

(** ** More sample inputs *)

Module Demo.

(** A parser given by the table of the texts it reads. *)
Definition loads (table : list (string * pyval)) (s : string) : attempt pyval :=
  match lookup s table with
  | Some v => Ok v
  | None => Sample.not_json
  end.

(** An argument parser that answers with [args]. *)
Definition parser (args : namespace) : list string -> parsed :=
  fun _ => Parsed args.

Definition command_line (cmd : string) : namespace :=
  mkNamespace (Some cmd) None None None None None.

Definition ok_remote : nat -> request -> http_outcome :=
  Sample.always (Sample.answer 200 Sample.not_json).

Definition permission_denied : exn :=
  mkExn (OtherException "PermissionError") "[Errno 13] Permission denied: '/root/secret.log'".

(** A world with one readable log file and one that cannot be read. *)
Definition with_logs (input : list string) : world :=
  mkWorld input NoFile
    (fun path =>
       if path =? "/var/log/app.log" then Some (Ok "disk full")
       else if path =? "/root/secret.log" then Some (Err permission_denied)
       else None)
    ok_remote [] [].

Definition analyze_args (file text : option string) : namespace :=
  mkNamespace (Some "analyze") file text None None None.

Definition setup_args (key model : option string) : namespace :=
  mkNamespace (Some "setup") None None None key model.

Definition monitoring_off : list (string * pyval) :=
  [("error_monitoring", PDict [("enabled", PBool false); ("scan_interval", PInt 60)])].

Definition wizard_result : pyval :=
  fresh_configuration (PStr "sk-or-1") (PStr "anthropic/claude-3-sonnet").

Definition wizard_world : world :=
  Sample.world_of ["sk-or-1" ++ PyStr.nl; "2" ++ PyStr.nl] NoFile ok_remote.

End Demo.

(** ** Properties *)

(** *** The key validator *)

Lemma validate_falsy_key (api_key : pyval) (w : world) :
  truthy api_key = false -> validate_openrouter_api_key api_key w = Ret false w.
Proof.
  intros Hk. unfold validate_openrouter_api_key. rewrite Hk. reflexivity.
Qed.

Lemma validate_truthy_key (api_key : pyval) (w : world) :
  truthy api_key = true ->
  validate_openrouter_api_key api_key w =
  match http w (length (sent w)) (auth_key_request api_key) with
  | Responds r =>
      Ret (status_code r =? 200)%Z
          (set_sent (sent w ++ [auth_key_request api_key])%list w)
  | ConnectionFails e =>
      Ret false
          (set_out (out w ++ [Log ERROR [Lit "API key validation error: ";
                                         Fmt (PStr (exn_msg e))]])%list
             (set_sent (sent w ++ [auth_key_request api_key])%list w))
  end.
Proof.
  intros Hk. unfold validate_openrouter_api_key. rewrite Hk. cbn.
  unfold try_except, try_catch, bind, send.
  destruct (http w (length (sent w)) (auth_key_request api_key)); reflexivity.
Qed.

(** C3: [validate_openrouter_api_key] always returns a boolean, never
    raises; the boolean is [True] exactly when the GET to [/auth/key]
    went out and was answered with status 200; when the request raises,
    the exception is caught and [False] is returned. *)
Theorem validate_true_iff_status_200 (api_key : pyval) (w : world) :
  exists (b : bool) (w' : world),
    validate_openrouter_api_key api_key w = Ret b w'
    /\ (b = true <->
        truthy api_key = true
        /\ exists r, http w (length (sent w)) (auth_key_request api_key)
                     = Responds r
                     /\ status_code r = 200%Z)
    /\ (forall e, http w (length (sent w)) (auth_key_request api_key)
                  = ConnectionFails e -> b = false).
Proof.
  destruct (truthy api_key) eqn:Hk.
  - rewrite (validate_truthy_key _ _ Hk).
    destruct (http w (length (sent w)) (auth_key_request api_key)) as [e|r] eqn:Hh.
    + eexists _, _. split; [reflexivity|]. split.
      * split; [discriminate|]. intros [_ [r [Hr _]]]. discriminate.
      * reflexivity.
    + eexists _, _. split; [reflexivity|]. split.
      * split.
        -- intros Hb. split; [reflexivity|]. exists r. split; [reflexivity|].
           now apply Z.eqb_eq.
        -- intros [_ [r' [Hr Hs]]]. injection Hr as <-. now apply Z.eqb_eq.
      * discriminate.
  - rewrite (validate_falsy_key _ _ Hk).
    eexists _, _. split; [reflexivity|]. split.
    + split; [discriminate|]. intros [Ht _]. discriminate.
    + reflexivity.
Qed.

(** C10: an empty key, or any other falsy value, is refused at once:
    the result is [False] and the world is untouched, so no request was
    sent. *)
Theorem validate_empty_key_sends_nothing (api_key : pyval) (w : world) :
  truthy api_key = false ->
  validate_openrouter_api_key api_key w = Ret false w.
Proof.
  intros Hfalsy. unfold validate_openrouter_api_key.
  rewrite Hfalsy. cbn [negb]. reflexivity.
Qed.

Lemma validate_empty_key_sends_nothing_witness :
  truthy (PStr "") = false
  /\ validate_openrouter_api_key (PStr "")
       (Sample.world_of [] NoFile (Sample.always (Sample.answer 200 Sample.not_json)))
     = Ret false
         (Sample.world_of [] NoFile (Sample.always (Sample.answer 200 Sample.not_json))).
Proof.
  split; [reflexivity|].
  apply (validate_empty_key_sends_nothing (PStr "")). reflexivity.
Defined.

(** *** The chat request client *)

Lemma append_assoc (a b c : string) : (a ++ b) ++ c = a ++ b ++ c.
Proof. induction a as [|x a IH]; cbn; [reflexivity|]. now rewrite IH. Qed.

Lemma append_empty_r (a : string) : a ++ "" = a.
Proof. induction a as [|x a IH]; cbn; [reflexivity|]. now rewrite IH. Qed.

Lemma contains_here (b c : string) : PyStr.contains b (b ++ c).
Proof. now exists "", c. Qed.

Lemma contains_self (b : string) : PyStr.contains b b.
Proof. exists "", "". cbn. now rewrite append_empty_r. Qed.

Lemma contains_later (a b t : string) :
  PyStr.contains b t -> PyStr.contains b (a ++ t).
Proof.
  intros [x [y ->]]. exists (a ++ x), y. now rewrite append_assoc.
Qed.

Lemma chat_after_try (config : pyval) (prompt task : string) (w : world) :
  chat config prompt task w =
  match chat_try config prompt task w with
  | Ret v w' => Ret v w'
  | Raise e w' =>
      Ret (PStr ("Error: Could not " ++ task ++ " due to an API issue: "
                 ++ exn_msg e))
          (set_out (out w' ++ [Log ERROR [Lit "Error calling OpenRouter API: ";
                                          Fmt (PStr (exn_msg e))]])%list w')
  | Diverge => Diverge
  end.
Proof.
  unfold chat, try_except, try_catch.
  destruct (chat_try config prompt task w); reflexivity.
Qed.

Lemma chat_try_ends (config : pyval) (prompt task : string) (w : world) :
  chat_try config prompt task w <> Diverge.
Proof.
  unfold chat_try, bind, lift, send, log, emit, ret.
  destruct (getitem config "api_key"); [|discriminate].
  destruct (getitem config "model"); [|discriminate].
  destruct (http w _ _) as [e|r]; [discriminate|].
  destruct (status_code r =? 200)%Z; [|discriminate].
  destruct (json r); [|discriminate].
  destruct (first_choice_content _); discriminate.
Qed.

(** With both entries in the configuration, the request goes out and
    the answer decides. *)
Lemma chat_try_sends (config api_key model : pyval) (prompt task : string)
  (w : world) :
  getitem config "api_key" = Ok api_key ->
  getitem config "model" = Ok model ->
  let req := chat_request api_key model prompt in
  let w1 := set_sent (sent w ++ [req])%list w in
  chat_try config prompt task w =
  match http w (length (sent w)) req with
  | ConnectionFails e => Raise e w1
  | Responds r =>
      if (status_code r =? 200)%Z then
        match json r with
        | Err e => Raise e w1
        | Ok result =>
            match first_choice_content result with
            | Err e => Raise e w1
            | Ok content => Ret content w1
            end
        end
      else
        Ret (PStr ("Error: Could not " ++ task ++ ". API responded with "
                   ++ PyStr.of_int (status_code r) ++ "."))
            (set_out (out w1 ++ [Log ERROR [Lit "API error: ";
                                            Fmt (PInt (status_code r));
                                            Lit " - ";
                                            Fmt (PStr (text r))]])%list w1)
  end.
Proof.
  intros Hk Hm req w1. unfold chat_try, bind, lift, send. rewrite Hk, Hm.
  fold req. fold w1.
  destruct (http w (length (sent w)) req) as [e|r]; [reflexivity|].
  destruct (status_code r =? 200)%Z; [|reflexivity].
  destruct (json r); [|reflexivity].
  destruct (first_choice_content a); reflexivity.
Qed.

Lemma chat_meets_contract (config : pyval) (prompt task : string) (w : world) :
  chat_contract (chat config prompt task) (chat_try config prompt task)
    config (fun api_key model => chat_request api_key model prompt) w.
Proof.
  assert (Hraise : forall e w1,
             chat_try config prompt task w = Raise e w1 ->
             exists v, returns (chat config prompt task w) v
                       /\ error_report (exn_msg e) v).
  { intros e w1 H. rewrite chat_after_try, H. eexists. split.
    - eexists. reflexivity.
    - eexists. split; [reflexivity|]. split; [reflexivity|].
      do 3 apply contains_later. apply contains_self. }
  repeat split.
  - rewrite chat_after_try.
    destruct (chat_try config prompt task w) eqn:H; eauto.
    now apply chat_try_ends in H.
  - intros api_key model r result content Hk Hm Hh Hs Hj Hc.
    rewrite chat_after_try, (chat_try_sends _ _ _ _ _ _ Hk Hm). cbn zeta.
    rewrite Hh, Hs, Hj, Hc. cbn. eexists. reflexivity.
  - intros api_key model r Hk Hm Hh Hs.
    rewrite chat_after_try, (chat_try_sends _ _ _ _ _ _ Hk Hm). cbn zeta.
    rewrite Hh. apply Z.eqb_neq in Hs. rewrite Hs.
    eexists. split; [eexists; reflexivity|].
    eexists. split; [reflexivity|]. split; [reflexivity|].
    do 3 apply contains_later. apply contains_here.
  - intros api_key model e Hk Hm Hh.
    apply (Hraise e (set_sent (sent w ++ [chat_request api_key model prompt])%list w)).
    rewrite (chat_try_sends _ _ _ _ _ _ Hk Hm). cbn zeta. now rewrite Hh.
  - exact Hraise.
Qed.

(** The code's subscripts reach the message content of the first
    choice, and nothing else. *)
Lemma first_choice_content_iff (result content : pyval) :
  first_choice_content result = Ok content <-> first_choice_has result content.
Proof.
  split.
  - unfold first_choice_content. intros H.
    destruct result as [| | | | |d]; try discriminate.
    cbn in H. destruct (lookup "choices" d) as [choices|] eqn:Hc;
      [|discriminate].
    destruct choices as [|b|n|t|l|dd]; try discriminate.
    + exfalso. cbn in H.
      destruct (list_index (PyStr.chars t) 0); discriminate.
    + destruct l as [|choice others]; [discriminate|].
      assert (Hi : getitem_int (PList (choice :: others)) 0 = Ok choice).
      { unfold getitem_int, list_index.
        replace ((0 <=? 0) && (0 <? Z.of_nat (length (choice :: others))))%Z
          with true; [reflexivity|].
        symmetry. apply andb_true_iff. split; [reflexivity|].
        apply Z.ltb_lt. cbn [length]. lia. }
      rewrite Hi in H.
      destruct choice as [| | | | |c]; try discriminate.
      cbn in H. destruct (lookup "message" c) as [message|] eqn:Hm;
        [|discriminate].
      destruct message as [| | | | |m]; try discriminate.
      cbn in H. destruct (lookup "content" m) as [x|] eqn:Hx; [|discriminate].
      injection H as <-. exists d, c, others, m. repeat split; assumption.
  - intros [d [choice [others [message [-> [Hc [Hm Hx]]]]]]].
    unfold first_choice_content. cbn [getitem]. rewrite Hc.
    assert (Hi : getitem_int (PList (PDict choice :: others)) 0
                 = Ok (PDict choice)).
    { unfold getitem_int, list_index.
      replace ((0 <=? 0)
               && (0 <? Z.of_nat (length (PDict choice :: others))))%Z
        with true; [reflexivity|].
      symmetry. apply andb_true_iff. split; [reflexivity|].
      apply Z.ltb_lt. cbn [length]. lia. }
    rewrite Hi. cbn [getitem]. rewrite Hm. cbn [getitem]. rewrite Hx.
    reflexivity.
Qed.

Lemma chat_meets_spec (config : pyval) (prompt task : string) (w : world) :
  chat_spec (chat config prompt task) (chat_try config prompt task)
    config (fun api_key model => chat_request api_key model prompt) w.
Proof.
  destruct (chat_meets_contract config prompt task w)
    as [H1 [H2 [H3 [H4 H5]]]].
  split; [exact H1|]. split; [|split; [exact H3 | split; [exact H4 | exact H5]]].
  intros api_key model r result content Hk Hm Hh Hs Hj Hc.
  apply (H2 api_key model r result content Hk Hm Hh Hs Hj).
  apply first_choice_content_iff. exact Hc.
Qed.

(** C1: [analyze_error] and [install_tool] never raise.  On status 200,
    when the answer has a first choice with a message content, they
    return that content as it is; on any other status S a text that
    begins with [Error:] and contains the decimal digits of S; and when
    the request, or anything else in the [try] block, raises, a text
    that begins with [Error:] and contains the message of the
    exception. *)
Theorem chat_operations_return_content_or_error_text
  (config : pyval) (input : string) (w : world) :
  chat_spec (analyze_error config input)
    (chat_try config (analyze_prompt input) "analyze the error")
    config (fun api_key model => chat_request api_key model (analyze_prompt input))
    w
  /\ chat_spec (install_tool config input)
       (chat_try config (install_prompt input) "get installation instructions")
       config (fun api_key model => chat_request api_key model (install_prompt input))
       w.
Proof. split; apply chat_meets_spec. Qed.

Lemma chat_operations_return_content_or_error_text_witness :
  returns
    (analyze_error Sample.config "NullPointerException at line 5"
       (Sample.world_of [] NoFile
          (Sample.always
             (Sample.answer 200
                (Ok (Sample.completions
                       [PStr "## Cause"; PStr "another draft";
                        PStr "a third"]))))))
    (PStr "## Cause")
  /\ returns
       (install_tool Sample.config "terraform"
          (Sample.world_of [] NoFile
             (Sample.always
                (Sample.answer 200
                   (Ok (Sample.completions
                          [PStr "brew install terraform"; PStr "## Cause"]))))))
       (PStr "brew install terraform")
  /\ (exists v,
        returns
          (analyze_error Sample.config "NullPointerException at line 5"
             (Sample.world_of [] NoFile
                (Sample.always (Sample.answer 429 Sample.not_json))))
          v
        /\ error_report "429" v)
  /\ (exists v,
        returns
          (install_tool Sample.config "terraform"
             (Sample.world_of [] NoFile
                (Sample.always (ConnectionFails Sample.timeout))))
          v
        /\ error_report "Connection to openrouter.ai timed out." v).
Proof.
  split; [|split; [|split]].
  - destruct (chat_operations_return_content_or_error_text Sample.config
                "NullPointerException at line 5"
                (Sample.world_of [] NoFile
                   (Sample.always
                      (Sample.answer 200
                         (Ok (Sample.completions
                                [PStr "## Cause"; PStr "another draft";
                                 PStr "a third"]))))))
      as [[_ [H _]] _].
    eapply H; try reflexivity.
    eexists _, _, _, _. repeat split; reflexivity.
  - destruct (chat_operations_return_content_or_error_text Sample.config
                "terraform"
                (Sample.world_of [] NoFile
                   (Sample.always
                      (Sample.answer 200
                         (Ok (Sample.completions
                                [PStr "brew install terraform";
                                 PStr "## Cause"]))))))
      as [_ [_ [H _]]].
    eapply H; try reflexivity.
    eexists _, _, _, _. repeat split; reflexivity.
  - destruct (chat_operations_return_content_or_error_text Sample.config
                "NullPointerException at line 5"
                (Sample.world_of [] NoFile
                   (Sample.always (Sample.answer 429 Sample.not_json))))
      as [[_ [_ [H _]]] _].
    eapply (H (PStr "sk-or-1") (PStr "openai/gpt-4o")
              (mkResponse 429 "" Sample.not_json));
      [reflexivity | reflexivity | reflexivity | discriminate].
  - destruct (chat_operations_return_content_or_error_text Sample.config
                "terraform"
                (Sample.world_of [] NoFile
                   (Sample.always (ConnectionFails Sample.timeout))))
      as [_ [_ [_ [_ [H _]]]]].
    eapply (H (PStr "sk-or-1") (PStr "openai/gpt-4o") Sample.timeout);
      reflexivity.
Defined.

(** *** The model directory client *)

Lemma collect_ids_dicts (entries acc : list pyval) :
  forallb is_dict entries = true ->
  collect_ids entries acc = Ok (acc ++ listed_ids entries)%list.
Proof.
  revert acc. induction entries as [|entry rest IH]; intros acc Hd.
  - cbn. now rewrite app_nil_r.
  - cbn in Hd. apply andb_true_iff in Hd as [He Hrest].
    destruct entry as [| | | | |d]; try discriminate.
    cbn. destruct (lookup "id" d) as [model_id|]; cbn.
    + rewrite (IH _ Hrest). destruct (truthy model_id); cbn.
      * now rewrite <- app_assoc.
      * reflexivity.
    + now rewrite (IH _ Hrest).
Qed.

Lemma collect_ids_raises_on_other_entry (entries acc : list pyval) :
  forallb is_dict entries = false ->
  exists e, collect_ids entries acc = Err e.
Proof.
  revert acc. induction entries as [|entry rest IH]; intros acc H;
    [discriminate|].
  cbn [forallb] in H. destruct (is_dict entry) eqn:Hd.
  - cbn [andb] in H. destruct entry as [|b|n|t|l|d]; try discriminate.
    cbn [collect_ids method_get].
    destruct (lookup "id" d) as [model_id|]; apply IH; exact H.
  - destruct entry as [|b|n|t|l|d]; try discriminate; eexists; reflexivity.
Qed.

Lemma models_after_try (api_key : pyval) (w : world) :
  get_available_models api_key w =
  match get_available_models_try api_key w with
  | Ret models w' => Ret models w'
  | Raise e w' =>
      Ret fallback_models
          (set_out (out w' ++ [Log ERROR [Lit "Error fetching models: ";
                                          Fmt (PStr (exn_msg e))]])%list w')
  | Diverge => Diverge
  end.
Proof.
  unfold get_available_models, try_except, try_catch.
  destruct (get_available_models_try api_key w); reflexivity.
Qed.

Lemma models_try_unfolded (api_key : pyval) (w : world) :
  let w1 := set_sent (sent w ++ [models_request api_key])%list w in
  get_available_models_try api_key w =
  match http w (length (sent w)) (models_request api_key) with
  | ConnectionFails e => Raise e w1
  | Responds r =>
      if (status_code r =? 200)%Z then
        match extract_ids r with
        | Err e => Raise e w1
        | Ok [] =>
            Ret fallback_models
                (set_out (out w1 ++ [Log WARNING
                   [Lit "No models returned from API, using fallback list"]])%list w1)
        | Ok ids => Ret ids w1
        end
      else
        Ret fallback_models
            (set_out (out w1 ++ [Log WARNING [Lit "Could not fetch models: ";
                                              Fmt (PInt (status_code r))]])%list w1)
  end.
Proof.
  intros w1. unfold get_available_models_try, bind, lift, send, extract_ids.
  fold w1.
  destruct (http w (length (sent w)) (models_request api_key)) as [e|r];
    [reflexivity|].
  destruct (status_code r =? 200)%Z; [|reflexivity].
  destruct (json r) as [models_data|]; [|reflexivity].
  destruct (method_get models_data "data" (PList [])) as [data|]; [|reflexivity].
  destruct (iterate data) as [items|]; [|reflexivity].
  destruct (collect_ids items []) as [[|x ids]|]; reflexivity.
Qed.

Lemma models_always_returned (api_key : pyval) (w : world) :
  exists models w', get_available_models api_key w = Ret models w'.
Proof.
  rewrite models_after_try, models_try_unfolded. cbn zeta.
  destruct (http w _ _) as [e|r]; [eauto|].
  destruct (status_code r =? 200)%Z; [|eauto].
  destruct (extract_ids r) as [[|x ids]|]; eauto.
Qed.

(** C2, as the code has it.  [get_available_models] never raises.  It
    returns the fallback list, which has eleven entries, when the
    request raises, when the status is not 200, when anything raises
    while the body is read, when the body yields no identifier, and
    when an entry of the data array is not an object; on a 200 answer
    whose data array holds only objects and yields identifiers it
    returns them, in the order of the array. *)
Theorem models_listed_or_fallback (api_key : pyval) (w : world) :
  let outcome := http w (length (sent w)) (models_request api_key) in
  (exists models w', get_available_models api_key w = Ret models w')
  /\ length fallback_models = 11
  /\ (forall e, outcome = ConnectionFails e ->
        returns (get_available_models api_key w) fallback_models)
  /\ (forall r, outcome = Responds r -> status_code r <> 200%Z ->
        returns (get_available_models api_key w) fallback_models)
  /\ (forall e w1, get_available_models_try api_key w = Raise e w1 ->
        returns (get_available_models api_key w) fallback_models)
  /\ (forall r d, outcome = Responds r -> status_code r = 200%Z ->
        json r = Ok (PDict d) -> lookup "data" d = None ->
        returns (get_available_models api_key w) fallback_models)
  /\ (forall r d entries,
        outcome = Responds r -> status_code r = 200%Z ->
        json r = Ok (PDict d) -> lookup "data" d = Some (PList entries) ->
        forallb is_dict entries = true ->
        (listed_ids entries = [] ->
         returns (get_available_models api_key w) fallback_models)
        /\ (listed_ids entries <> [] ->
            returns (get_available_models api_key w) (listed_ids entries)))
  /\ (forall r d entries,
        outcome = Responds r -> status_code r = 200%Z ->
        json r = Ok (PDict d) -> lookup "data" d = Some (PList entries) ->
        forallb is_dict entries = false ->
        returns (get_available_models api_key w) fallback_models).
Proof.
  intros outcome. subst outcome.
  split; [apply models_always_returned|].
  split; [reflexivity|].
  split; [|split; [|split; [|split; [|split]]]].
  - intros e He. rewrite models_after_try, models_try_unfolded. cbn zeta.
    rewrite He. eexists. reflexivity.
  - intros r Hr Hs. rewrite models_after_try, models_try_unfolded. cbn zeta.
    rewrite Hr. apply Z.eqb_neq in Hs. rewrite Hs. eexists. reflexivity.
  - intros e w1 H. rewrite models_after_try, H. eexists. reflexivity.
  - intros r d Hr Hs Hj Hd. rewrite models_after_try, models_try_unfolded.
    cbn zeta. rewrite Hr, Hs. unfold extract_ids. rewrite Hj. cbn.
    rewrite Hd. cbn. eexists. reflexivity.
  - intros r d entries Hr Hs Hj Hd Hdicts.
    assert (Hx : extract_ids r = Ok (listed_ids entries)).
    { unfold extract_ids. rewrite Hj. cbn. rewrite Hd. cbn.
      now rewrite (collect_ids_dicts _ _ Hdicts). }
    split; intros Hids; rewrite models_after_try, models_try_unfolded;
      cbn zeta; rewrite Hr, Hs, Hx.
    + rewrite Hids. eexists. reflexivity.
    + destruct (listed_ids entries); [congruence|]. eexists. reflexivity.
  - intros r d entries Hr Hs Hj Hd Hother.
    destruct (collect_ids_raises_on_other_entry entries [] Hother) as [e He].
    assert (Hx : extract_ids r = Err e).
    { unfold extract_ids. rewrite Hj. cbn. rewrite Hd. cbn. exact He. }
    rewrite models_after_try, models_try_unfolded. cbn zeta.
    rewrite Hr, Hs, Hx. eexists. reflexivity.
Qed.

Lemma models_listed_or_fallback_witness :
  returns
    (get_available_models (PStr "sk-or-1")
       (Sample.world_of [] NoFile
          (Sample.always (Sample.answer 200 (Ok (Sample.listing Sample.entries))))))
    [PStr "a/one"; PStr "b/two"]
  /\ returns
       (get_available_models (PStr "sk-or-1")
          (Sample.world_of [] NoFile
             (Sample.always (Sample.answer 503 Sample.not_json))))
       fallback_models
  /\ returns
       (get_available_models (PStr "sk-or-1")
          (Sample.world_of [] NoFile
             (Sample.always (ConnectionFails Sample.timeout))))
       fallback_models
  /\ returns
       (get_available_models (PStr "sk-or-1")
          (Sample.world_of [] NoFile
             (Sample.always (Sample.answer 200 (Ok (Sample.listing [PDict []]))))))
       fallback_models.
Proof.
  split; [|split; [|split]].
  - destruct (models_listed_or_fallback (PStr "sk-or-1")
                (Sample.world_of [] NoFile
                   (Sample.always
                      (Sample.answer 200 (Ok (Sample.listing Sample.entries))))))
      as [_ [_ [_ [_ [_ [_ [H _]]]]]]].
    destruct (H (mkResponse 200 "" (Ok (Sample.listing Sample.entries)))
                [("data", PList Sample.entries)] Sample.entries
                eq_refl eq_refl eq_refl eq_refl eq_refl) as [_ H2].
    apply H2. discriminate.
  - destruct (models_listed_or_fallback (PStr "sk-or-1")
                (Sample.world_of [] NoFile
                   (Sample.always (Sample.answer 503 Sample.not_json))))
      as [_ [_ [_ [H _]]]].
    eapply H; [reflexivity | discriminate].
  - destruct (models_listed_or_fallback (PStr "sk-or-1")
                (Sample.world_of [] NoFile
                   (Sample.always (ConnectionFails Sample.timeout))))
      as [_ [_ [H _]]].
    eapply H; reflexivity.
  - destruct (models_listed_or_fallback (PStr "sk-or-1")
                (Sample.world_of [] NoFile
                   (Sample.always
                      (Sample.answer 200 (Ok (Sample.listing [PDict []]))))))
      as [_ [_ [_ [_ [_ [_ [H _]]]]]]].
    destruct (H (mkResponse 200 "" (Ok (Sample.listing [PDict []])))
                [("data", PList [PDict []])] [PDict []]
                eq_refl eq_refl eq_refl eq_refl eq_refl) as [H1 _].
    apply H1. reflexivity.
Defined.

(** C2, as it is written, against the code.  The answer has status 200
    and a data array of two entries, the first an object with the
    identifier [a/one], the second the string [b/two]: the array is not
    empty and one entry has an id, yet the fallback list is returned
    and not the identifier, because the loop raises on the string and
    the identifier collected before it is dropped. *)
Lemma listing_with_a_string_entry_gives_the_fallback :
  listed_ids [PDict [("id", PStr "a/one")]; PStr "b/two"] = [PStr "a/one"]
  /\ returns
       (get_available_models (PStr "sk-or-1")
          (Sample.world_of [] NoFile
             (Sample.always
                (Sample.answer 200
                   (Ok (Sample.listing
                          [PDict [("id", PStr "a/one")]; PStr "b/two"]))))))
       fallback_models
  /\ ~ returns
         (get_available_models (PStr "sk-or-1")
            (Sample.world_of [] NoFile
               (Sample.always
                  (Sample.answer 200
                     (Ok (Sample.listing
                            [PDict [("id", PStr "a/one")]; PStr "b/two"]))))))
         [PStr "a/one"].
Proof.
  split; [reflexivity|]. split.
  - eexists. vm_compute. reflexivity.
  - intros [w' H]. vm_compute in H. discriminate.
Qed.

(** *** The model selection loop *)

Lemma model_round_unfolded (models : list pyval) (line : string)
  (rest : list string) (w : world) :
  stdin w = line :: rest ->
  let s := PyStr.strip line in
  let w1 := set_stdin rest (say select_prompt w) in
  model_round models tt w =
  if PyStr.isdigit s then
    match PyStr.int s with
    | None =>
        Ret (inl tt)
            (say (Stdout [Lit "Please enter a valid number or model ID."]) w1)
    | Some k =>
        if ((1 <=? k) && (k <=? Z.of_nat (length models)))%Z then
          match list_index models (k - 1) with
          | Some model =>
              Ret (inr model) (say (Stdout [Lit "Selected model: "; Fmt model]) w1)
          | None => Raise (mkExn IndexError "list index out of range") w1
          end
        else
          Ret (inl tt)
              (say (Stdout [Lit "Please enter a number between 1 and ";
                            Fmt (PInt (Z.of_nat (length models))); Lit "."]) w1)
    end
  else
    Ret (inr (PStr s))
        (say (Stdout [Lit "Using custom model: "; Fmt (PStr s)]) w1).
Proof.
  intros Hin s w1.
  unfold model_round, try_catch, bind, prompt, print, emit, readline, lift, int_of.
  cbn. rewrite Hin. fold s. cbn. fold select_prompt.
  destruct (PyStr.isdigit s); [|reflexivity].
  destruct (PyStr.int s) as [k|]; [|reflexivity].
  destruct ((1 <=? k) && (k <=? Z.of_nat (length models)))%Z; [|reflexivity].
  destruct (list_index models (k - 1)); reflexivity.
Qed.

Lemma list_index_in_range {A : Type} (l : list A) (k : Z) :
  (1 <= k <= Z.of_nat (length l))%Z ->
  exists x, nth_error l (Z.to_nat (k - 1)) = Some x
            /\ list_index l (k - 1) = Some x.
Proof.
  intros Hk. unfold list_index.
  assert (H0 : ((0 <=? k - 1) && (k - 1 <? Z.of_nat (length l)))%Z = true).
  { apply andb_true_iff. split; [apply Z.leb_le | apply Z.ltb_lt]; lia. }
  rewrite H0.
  destruct (nth_error l (Z.to_nat (k - 1))) as [x|] eqn:Hn; [eauto|].
  apply nth_error_None in Hn. lia.
Qed.

Lemma while_true_step {S A : Type} (body : S -> M (S + A)) (s : S)
  (line : string) (rest : list string) (w : world) :
  stdin w = line :: rest ->
  while_true body s w =
  match body s w with
  | Ret (inl s') w' => loop (Datatypes.S (length rest)) body s' w'
  | Ret (inr a) w' => Ret a w'
  | Raise e w' => Raise e w'
  | Diverge => Diverge
  end.
Proof. intros H. unfold while_true. rewrite H. reflexivity. Qed.

Lemma model_round_at_end_of_input (models : list pyval) (w : world) :
  stdin w = [] ->
  model_round models tt w =
  Ret (inr (PStr ""))
      (say (Stdout [Lit "Using custom model: "; Fmt (PStr "")])
         (say select_prompt w)).
Proof.
  intros Hin.
  unfold model_round, try_catch, bind, prompt, print, emit, readline, lift.
  cbn. rewrite Hin. reflexivity.
Qed.

Lemma in_range_dec (k n : Z) :
  ((1 <=? k) && (k <=? n))%Z = true <-> (1 <= k <= n)%Z.
Proof.
  rewrite andb_true_iff, Z.leb_le, Z.leb_le. reflexivity.
Qed.

(** C4, as the code has it.  One line is read and stripped of the
    whitespace around it.  If the stripped text passes [isdigit] and
    [int] gives a number k with 1 <= k <= n, entry k-1 of the list is
    the model and the loop ends.  If it passes [isdigit] and either k is
    out of that range or [int] rejects it, nothing is selected, nothing
    is raised and the loop asks again with the next line.  Otherwise
    the stripped text itself is the model and the loop ends. *)
Theorem model_selection_reads_stripped_line
  (models : list pyval) (line : string) (rest : list string) (w : world) :
  stdin w = line :: rest ->
  let s := PyStr.strip line in
  let n := Z.of_nat (length models) in
  (forall k,
      PyStr.isdigit s = true -> PyStr.int s = Some k -> (1 <= k <= n)%Z ->
      exists model w',
        nth_error models (Z.to_nat (k - 1)) = Some model
        /\ while_true (model_round models) tt w = Ret model w'
        /\ stdin w' = rest)
  /\ (PyStr.isdigit s = true ->
      (PyStr.int s = None
       \/ exists k, PyStr.int s = Some k /\ ~ (1 <= k <= n)%Z) ->
      exists w',
        model_round models tt w = Ret (inl tt) w'
        /\ stdin w' = rest /\ store w' = store w /\ sent w' = sent w
        /\ while_true (model_round models) tt w
           = while_true (model_round models) tt w')
  /\ (PyStr.isdigit s = false ->
      exists w',
        while_true (model_round models) tt w = Ret (PStr s) w'
        /\ stdin w' = rest).
Proof.
  intros Hin s n. split; [|split].
  - intros k Hd Hi Hk.
    destruct (list_index_in_range models k Hk) as [model [Hn Hx]].
    exists model. eexists. split; [exact Hn|].
    rewrite (while_true_step _ _ _ _ _ Hin),
      (model_round_unfolded _ _ _ _ Hin). cbn zeta. fold s.
    rewrite Hd, Hi. apply in_range_dec in Hk. fold n. rewrite Hk, Hx.
    split; reflexivity.
  - intros Hd Hbad.
    assert (Hround : exists e,
               model_round models tt w
               = Ret (inl tt) (say e (set_stdin rest (say select_prompt w)))).
    { rewrite (model_round_unfolded _ _ _ _ Hin). cbn zeta. fold s.
      rewrite Hd. destruct Hbad as [Hi | [k [Hi Hk]]]; rewrite Hi.
      - eauto.
      - fold n. destruct ((1 <=? k) && (k <=? n))%Z eqn:Hr.
        + apply in_range_dec in Hr. contradiction.
        + eauto. }
    destruct Hround as [e He]. eexists. split; [exact He|].
    repeat split.
    rewrite (while_true_step _ _ _ _ _ Hin), He. reflexivity.
  - intros Hd. eexists.
    rewrite (while_true_step _ _ _ _ _ Hin),
      (model_round_unfolded _ _ _ _ Hin). cbn zeta. fold s. rewrite Hd.
    split; reflexivity.
Qed.

Lemma model_selection_reads_stripped_line_witness :
  (exists w',
      while_true (model_round Sample.five) tt
        (Sample.world_of ["3" ++ PyStr.nl] NoFile
           (Sample.always (ConnectionFails Sample.timeout)))
      = Ret (PStr "m/three") w')
  /\ (exists w',
        model_round Sample.five tt
          (Sample.world_of ["99" ++ PyStr.nl; "2" ++ PyStr.nl] NoFile
             (Sample.always (ConnectionFails Sample.timeout)))
        = Ret (inl tt) w'
        /\ stdin w' = ["2" ++ PyStr.nl])
  /\ (exists w',
        while_true (model_round Sample.five) tt
          (Sample.world_of ["amazon/foo" ++ PyStr.nl] NoFile
             (Sample.always (ConnectionFails Sample.timeout)))
        = Ret (PStr "amazon/foo") w').
Proof.
  split; [|split].
  - destruct (model_selection_reads_stripped_line Sample.five
                ("3" ++ PyStr.nl) []
                (Sample.world_of ["3" ++ PyStr.nl] NoFile
                   (Sample.always (ConnectionFails Sample.timeout)))
                eq_refl) as [H _].
    assert (Hk : (1 <= 3 <= Z.of_nat (length Sample.five))%Z) by (cbn; lia).
    destruct (H 3%Z eq_refl eq_refl Hk) as [model [w' [Hn [Hw _]]]].
    exists w'. injection Hn as <-. exact Hw.
  - destruct (model_selection_reads_stripped_line Sample.five
                ("99" ++ PyStr.nl) ["2" ++ PyStr.nl]
                (Sample.world_of ["99" ++ PyStr.nl; "2" ++ PyStr.nl] NoFile
                   (Sample.always (ConnectionFails Sample.timeout)))
                eq_refl) as [_ [H _]].
    assert (Hbad : PyStr.int (PyStr.strip ("99" ++ PyStr.nl)) = None
                   \/ exists k, PyStr.int (PyStr.strip ("99" ++ PyStr.nl)) = Some k
                                /\ ~ (1 <= k <= Z.of_nat (length Sample.five))%Z).
    { right. exists 99%Z. split; [reflexivity|]. cbn. lia. }
    destruct (H eq_refl Hbad) as [w' [Hr [Hs _]]].
    exists w'. split; assumption.
  - destruct (model_selection_reads_stripped_line Sample.five
                ("amazon/foo" ++ PyStr.nl) []
                (Sample.world_of ["amazon/foo" ++ PyStr.nl] NoFile
                   (Sample.always (ConnectionFails Sample.timeout)))
                eq_refl) as [_ [_ H]].
    destruct (H eq_refl) as [w' [Hw _]]. exists w'. exact Hw.
Defined.

(** C4, as it is written, against the code.  With five models listed,
    the line of 4400 zeros followed by a 3 consists purely of digits and
    its value is 3, which is in range; yet [int] refuses a text of more
    than 4300 digits, so the third entry is not selected: the round
    reports an invalid number and the loop asks again. *)
Lemma long_number_in_range_is_not_selected :
  PyStr.strip Sample.long_three = Sample.long_three
  /\ PyStr.all_chars
       (fun c => match PyStr.decimal_value c with Some _ => true | None => false end)
       Sample.long_three = true
  /\ PyStr.isdigit Sample.long_three = true
  /\ PyStr.int_digits 0 Sample.long_three = Some 3%Z
  /\ (1 <= 3 <= Z.of_nat (length Sample.five))%Z
  /\ PyStr.int Sample.long_three = None
  /\ model_round Sample.five tt
       (Sample.world_of [Sample.long_three; "2"] NoFile
          (Sample.always (ConnectionFails Sample.timeout)))
     = Ret (inl tt)
         (say (Stdout [Lit "Please enter a valid number or model ID."])
            (set_stdin ["2"]
               (say select_prompt
                  (Sample.world_of [Sample.long_three; "2"] NoFile
                     (Sample.always (ConnectionFails Sample.timeout))))))
  /\ ~ returns
         (while_true (model_round Sample.five) tt
            (Sample.world_of [Sample.long_three; "2"] NoFile
               (Sample.always (ConnectionFails Sample.timeout))))
         (PStr "m/three").
Proof.
  split; [vm_compute; reflexivity|].
  split; [vm_compute; reflexivity|].
  split; [vm_compute; reflexivity|].
  split; [vm_compute; reflexivity|].
  split; [cbn; lia|].
  split; [vm_compute; reflexivity|].
  split; [vm_compute; reflexivity|].
  intros [w' H]. vm_compute in H. discriminate.
Qed.

(** *** Loading the configuration *)

Lemma set_store_same (w : world) (c : config_store) :
  store w = c -> set_store c w = w.
Proof. destruct w. cbn. intros ->. reflexivity. Qed.

Section Loading.

Variable json_loads : string -> attempt pyval.

Lemma load_config_parsed (w : world) (content : string) (config : pyval) :
  store w = File content ->
  json_loads content = Ok config ->
  load_config json_loads w
  = Ret config (say (Log INFO [Lit "Configuration loaded successfully."]) w).
Proof.
  intros Hs Hj.
  unfold load_config, bind, ensure_config_dir, read_config_file.
  rewrite Hs. cbv beta iota. rewrite Hs. cbv beta iota.
  unfold try_except, try_catch, bind, lift. rewrite Hj. reflexivity.
Qed.

Lemma load_config_unreadable (w : world) (content : string) (e : exn) :
  store w = File content ->
  json_loads content = Err e ->
  load_config json_loads w
  = first_time_setup
      (say (Log INFO [Lit "Running setup again to fix configuration..."])
         (say (Log ERROR [Lit "Error loading configuration: ";
                          Fmt (PStr (exn_msg e))]) w)).
Proof.
  intros Hs Hj.
  unfold load_config, bind, ensure_config_dir, read_config_file.
  rewrite Hs. cbv beta iota. rewrite Hs. cbv beta iota.
  unfold try_except, try_catch, bind, lift. rewrite Hj. reflexivity.
Qed.

Lemma load_config_missing (w : world) :
  store w = NoDir \/ store w = NoFile ->
  load_config json_loads w
  = first_time_setup
      (say (Log INFO [Lit "No configuration found. Running first-time setup..."])
         (set_store NoFile w)).
Proof.
  intros [Hs | Hs];
    unfold load_config, bind, ensure_config_dir, read_config_file;
    rewrite Hs; cbv beta iota.
  - reflexivity.
  - rewrite Hs. cbv beta iota. now rewrite (set_store_same _ _ Hs).
Qed.

(** C5: when the configuration file exists and its text parses,
    [load_config] returns the parsed value as it is, whatever entries
    it has, and the only trace it leaves is one log line: the setup
    flow is not entered.  When the file is missing, or does not
    parse, [load_config] is the setup flow from then on: it ends as
    the setup ends and returns what the setup returns. *)
Theorem load_config_returns_file_or_runs_setup (w : world) :
  (forall content config,
      store w = File content ->
      json_loads content = Ok config ->
      load_config json_loads w
      = Ret config (say (Log INFO [Lit "Configuration loaded successfully."]) w))
  /\ (store w = NoDir \/ store w = NoFile ->
      load_config json_loads w
      = first_time_setup
          (say (Log INFO [Lit "No configuration found. Running first-time setup..."])
             (set_store NoFile w)))
  /\ (forall content e,
        store w = File content ->
        json_loads content = Err e ->
        load_config json_loads w
        = first_time_setup
            (say (Log INFO [Lit "Running setup again to fix configuration..."])
               (say (Log ERROR [Lit "Error loading configuration: ";
                                Fmt (PStr (exn_msg e))]) w))).
Proof.
  split; [|split].
  - apply load_config_parsed.
  - apply load_config_missing.
  - apply load_config_unreadable.
Qed.

End Loading.

Lemma load_config_returns_file_or_runs_setup_witness :
  load_config Sample.json_loads
    (Sample.world_of [] (File (Json.dumps Sample.config))
       (Sample.always (ConnectionFails Sample.timeout)))
  = Ret Sample.config
      (say (Log INFO [Lit "Configuration loaded successfully."])
         (Sample.world_of [] (File (Json.dumps Sample.config))
            (Sample.always (ConnectionFails Sample.timeout))))
  /\ load_config Sample.json_loads
       (Sample.world_of ["sk-or-1"; "2"] NoDir
          (Sample.always (Sample.answer 200 Sample.not_json)))
     = first_time_setup
         (say (Log INFO [Lit "No configuration found. Running first-time setup..."])
            (set_store NoFile
               (Sample.world_of ["sk-or-1"; "2"] NoDir
                  (Sample.always (Sample.answer 200 Sample.not_json)))))
  /\ load_config Sample.json_loads
       (Sample.world_of ["sk-or-1"; "2"] (File "{api_key")
          (Sample.always (Sample.answer 200 Sample.not_json)))
     = first_time_setup
         (say (Log INFO [Lit "Running setup again to fix configuration..."])
            (say (Log ERROR [Lit "Error loading configuration: ";
                             Fmt (PStr "Expecting value: line 1 column 1 (char 0)")])
               (Sample.world_of ["sk-or-1"; "2"] (File "{api_key")
                  (Sample.always (Sample.answer 200 Sample.not_json))))).
Proof.
  split; [|split].
  - apply (proj1 (load_config_returns_file_or_runs_setup Sample.json_loads
             (Sample.world_of [] (File (Json.dumps Sample.config))
                (Sample.always (ConnectionFails Sample.timeout))))
             (Json.dumps Sample.config) Sample.config);
      reflexivity.
  - apply (proj1 (proj2 (load_config_returns_file_or_runs_setup Sample.json_loads
             (Sample.world_of ["sk-or-1"; "2"] NoDir
                (Sample.always (Sample.answer 200 Sample.not_json)))))).
    left. reflexivity.
  - apply (proj2 (proj2 (load_config_returns_file_or_runs_setup Sample.json_loads
             (Sample.world_of ["sk-or-1"; "2"] (File "{api_key")
                (Sample.always (Sample.answer 200 Sample.not_json)))))
             "{api_key" Sample.not_json_error);
      reflexivity.
Defined.

(** *** Which configurations reach a chat request *)

Lemma bind_ret {A B : Type} (m : M A) (k : A -> M B) (w w' : world) (b : B) :
  bind m k w = Ret b w' ->
  exists a w1, m w = Ret a w1 /\ k a w1 = Ret b w'.
Proof.
  unfold bind. destruct (m w) as [a w1| |]; try discriminate. eauto.
Qed.


Lemma finish_setup_result (items : list (string * pyval)) (w w' : world)
  (config : pyval) :
  finish_setup items w = Ret config w' ->
  config = PDict (dict_set "error_monitoring" default_error_monitoring items)
  /\ store w' = File (Json.dumps config).
Proof.
  unfold finish_setup, bind, print, emit, save_config, ret. cbn.
  destruct (store w); [discriminate| |]; intros H; injection H as <- <-;
    split; reflexivity.
Qed.







(** *** The [setup] command with an API key on the command line *)

Lemma setup_from_arguments_asks_nothing (args : namespace) (w : world) :
  given (arg_api_key args) = true ->
  given (arg_model args) = true ->
  store w <> NoDir ->
  exists w',
    setup_from_arguments args w
    = Ret (PDict [ ("api_key", PStr (or_empty (arg_api_key args)));
                   ("model", PStr (or_empty (arg_model args)));
                   ("error_monitoring", default_error_monitoring) ]) w'
    /\ sent w' = sent w
    /\ stdin w' = stdin w
    /\ store w' = File (Json.dumps
                          (PDict [ ("api_key", PStr (or_empty (arg_api_key args)));
                                   ("model", PStr (or_empty (arg_model args)));
                                   ("error_monitoring", default_error_monitoring) ])).
Proof.
  intros Hk Hm Hs.
  unfold setup_from_arguments, finish_setup, bind, print, emit, save_config, ret.
  rewrite Hm. cbn.
  destruct (store w); [contradiction| |]; eexists; repeat split.
Qed.

(** With no configuration to load, every command starts with the
    interactive setup. *)
Lemma run_without_configuration_enters_setup
  (json_loads : string -> attempt pyval) (args : namespace) (w : world) :
  given (command args) = true ->
  store w = NoDir \/ store w = NoFile ->
  run json_loads args w
  = (config <- first_time_setup ;;
     execute_command config args ;;
     ret tt)
      (say (Log INFO [Lit "No configuration found. Running first-time setup..."])
         (set_store NoFile w)).
Proof.
  intros Hc Hs. unfold run. rewrite Hc. cbn [negb].
  unfold bind at 1. rewrite (load_config_missing _ _ Hs). reflexivity.
Qed.

(** With a configuration that loads, [setup] with a key and a model on
    the command line asks nothing and sends nothing. *)
Lemma setup_arguments_with_configuration_present
  (json_loads : string -> attempt pyval) (args : namespace) (w : world)
  (content : string) (config : pyval) :
  store w = File content ->
  json_loads content = Ok config ->
  command args = Some "setup" ->
  given (arg_api_key args) = true ->
  given (arg_model args) = true ->
  exists w',
    run json_loads args w = Ret tt w'
    /\ sent w' = sent w
    /\ stdin w' = stdin w
    /\ store w' = File (Json.dumps
                          (PDict [ ("api_key", PStr (or_empty (arg_api_key args)));
                                   ("model", PStr (or_empty (arg_model args)));
                                   ("error_monitoring", default_error_monitoring) ])).
Proof.
  intros Hs Hj Hc Hk Hm. unfold run. rewrite Hc. cbn [given negb String.eqb].
  unfold bind at 1. rewrite (load_config_parsed _ _ _ _ Hs Hj).
  unfold execute_command, command_is. rewrite Hc, Hk. cbn [String.eqb Ascii.eqb].
  cbn -[setup_from_arguments Json.dumps default_error_monitoring].
  destruct (setup_from_arguments_asks_nothing args
              (say (Log INFO [Lit "Configuration loaded successfully."]) w) Hk Hm)
    as [w' [Hr [H1 [H2 H3]]]].
  { cbn. rewrite Hs. discriminate. }
  unfold bind. rewrite Hr. exists w'. repeat split; assumption.
Qed.

(** C7, at a first run.  The command is [setup --api-key sk-from-cli
    --model openai/gpt-4o] and there is no configuration yet.  Building
    the agent runs the interactive setup before the command is looked
    at: the key prompt is shown, two lines of input are read, the typed
    key is validated against [/auth/key] and the models are fetched.
    Only then are the key and the model of the command line written. *)
Theorem setup_with_key_on_first_run_still_asks_for_a_key :
  exists w',
    run Sample.json_loads
      (mkNamespace (Some "setup") None None None
         (Some "sk-from-cli") (Some "openai/gpt-4o"))
      (Sample.world_of ["sk-typed" ++ PyStr.nl; "1" ++ PyStr.nl] NoDir
         (Sample.always (Sample.answer 200 Sample.not_json)))
    = Ret tt w'
    /\ sent w' = [auth_key_request (PStr "sk-typed");
                  models_request (PStr "sk-typed")]
    /\ In (Prompt [Lit PyStr.nl; Lit "Enter your OpenRouter API key: "]) (out w')
    /\ stdin w' = []
    /\ store w' = File (Json.dumps
                          (PDict [ ("api_key", PStr "sk-from-cli");
                                   ("model", PStr "openai/gpt-4o");
                                   ("error_monitoring", default_error_monitoring) ])).
Proof.
  eexists. split; [vm_compute; reflexivity|]. cbn [sent out stdin store].
  split; [reflexivity|]. split; [|split; vm_compute; reflexivity].
  do 5 right. left. reflexivity.
Qed.

(** The same command with nothing to read on the standard input: the
    key loop of the setup goes round for ever. *)
Example setup_with_key_on_first_run_without_input_never_ends :
  run Sample.json_loads
    (mkNamespace (Some "setup") None None None
       (Some "sk-from-cli") (Some "openai/gpt-4o"))
    (Sample.world_of [] NoDir (Sample.always (Sample.answer 200 Sample.not_json)))
  = Diverge.
Proof. vm_compute. reflexivity. Qed.

(** *** No subcommand, unknown subcommand *)

Lemma not_a_subcommand (args : namespace) :
  (forall c, command args = Some c -> ~ In c subcommands) ->
  command_is args "analyze" = false
  /\ command_is args "install" = false
  /\ command_is args "monitor" = false
  /\ command_is args "setup" = false.
Proof.
  intros H. unfold command_is. destruct (command args) as [c|]; [|auto].
  specialize (H c eq_refl).
  repeat split; apply String.eqb_neq; intros ->; apply H; cbn; auto.
Qed.

Lemma existsb_subcommands (a : string) :
  ~ In a subcommands -> existsb (String.eqb a) subcommands = false.
Proof.
  intros H. destruct (existsb (String.eqb a) subcommands) eqn:E; [|reflexivity].
  apply existsb_exists in E as [c [Hc He]].
  apply String.eqb_eq in He. subst c. contradiction.
Qed.

(** C8, as the code has it.  Without a subcommand the program prints
    the help text and exits with status 0; nothing else happens: no
    request, no access to the configuration, no input read.  A first
    argument that is neither an option nor one of the four subcommands
    is refused by the argument parser: usage and error are printed and
    the program exits with status 2, again before anything else
    happens.  [execute_command], were it handed a command it does not
    know, prints its notice and returns. *)
Theorem help_without_subcommand_usage_error_for_unknown
  (json_loads : string -> attempt pyval) (argparse : list string -> parsed)
  (w : world) :
  main json_loads argparse [] w = Exits 0 (say HelpText w)
  /\ (forall a rest,
        PyStr.startswith "-" a = false ->
        ~ In a subcommands ->
        main json_loads argparse (a :: rest) w = Exits 2 (say (UsageError a) w))
  /\ (forall config args,
        (forall c, command args = Some c -> ~ In c subcommands) ->
        execute_command config args w
        = Ret config
            (say (Stdout [Lit "Unknown command. Use --help for available commands."])
               w)).
Proof.
  split; [reflexivity | split].
  - intros a rest Ha Hn. unfold main, parse_args.
    rewrite Ha, (existsb_subcommands _ Hn). reflexivity.
  - intros config args Hn.
    destruct (not_a_subcommand _ Hn) as [H1 [H2 [H3 H4]]].
    unfold execute_command. rewrite H1, H2, H3, H4. reflexivity.
Qed.

Lemma help_without_subcommand_usage_error_for_unknown_witness :
  main Sample.json_loads Sample.argparse ["deploy"; "--now"]
    (Sample.world_of [] NoDir (Sample.always (ConnectionFails Sample.timeout)))
  = Exits 2
      (say (UsageError "deploy")
         (Sample.world_of [] NoDir (Sample.always (ConnectionFails Sample.timeout))))
  /\ execute_command Sample.config
       (mkNamespace (Some "deploy") None None None None None)
       (Sample.world_of [] NoDir (Sample.always (ConnectionFails Sample.timeout)))
     = Ret Sample.config
         (say (Stdout [Lit "Unknown command. Use --help for available commands."])
            (Sample.world_of [] NoDir
               (Sample.always (ConnectionFails Sample.timeout)))).
Proof.
  split.
  - apply (proj1 (proj2 (help_without_subcommand_usage_error_for_unknown
                           Sample.json_loads Sample.argparse
                           (Sample.world_of [] NoDir
                              (Sample.always (ConnectionFails Sample.timeout)))))).
    + reflexivity.
    + cbn. intros [H | [H | [H | [H | []]]]]; discriminate.
  - apply (proj2 (proj2 (help_without_subcommand_usage_error_for_unknown
                           Sample.json_loads Sample.argparse
                           (Sample.world_of [] NoDir
                              (Sample.always (ConnectionFails Sample.timeout)))))).
    cbn. intros c Hc. injection Hc as <-.
    intros [H | [H | [H | [H | []]]]]; discriminate.
Defined.

(** C8, as it is written, against the code: with the unknown subcommand
    [deploy] the program does not exit with status 0 but with status 2,
    from the argument parser. *)
Lemma unknown_subcommand_exits_with_status_2 :
  main Sample.json_loads Sample.argparse ["deploy"]
    (Sample.world_of [] NoDir (Sample.always (ConnectionFails Sample.timeout)))
  = Exits 2
      (say (UsageError "deploy")
         (Sample.world_of [] NoDir (Sample.always (ConnectionFails Sample.timeout))))
  /\ forall w',
      main Sample.json_loads Sample.argparse ["deploy"]
        (Sample.world_of [] NoDir (Sample.always (ConnectionFails Sample.timeout)))
      <> Exits 0 w'.
Proof.
  split; [reflexivity|]. intros w'. vm_compute. discriminate.
Qed.

(** *** Saving the configuration *)

(** C9: saving a configuration writes its serialization over whatever
    the file held, so saving the same configuration twice leaves the
    same bytes after the second call as after the first. *)
Theorem save_config_twice_same_bytes (config : pyval) (w : world) :
  store w <> NoDir ->
  exists w1 w2,
    save_config config w = Ret tt w1
    /\ save_config config w1 = Ret tt w2
    /\ store w1 = File (Json.dumps config)
    /\ store w2 = store w1
    /\ w2 = w1.
Proof.
  intros Hs. unfold save_config.
  destruct (store w) eqn:E; [contradiction| |];
    eexists; eexists; cbn; repeat split.
Qed.

Lemma save_config_twice_same_bytes_witness :
  exists w1 w2,
    save_config Sample.config
      (Sample.world_of [] (File "{}") (Sample.always (ConnectionFails Sample.timeout)))
    = Ret tt w1
    /\ save_config Sample.config w1 = Ret tt w2
    /\ store w1 = File (Json.dumps Sample.config)
    /\ store w2 = store w1
    /\ w2 = w1.
Proof.
  apply (save_config_twice_same_bytes Sample.config
           (Sample.world_of [] (File "{}")
              (Sample.always (ConnectionFails Sample.timeout)))).
  discriminate.
Defined.

(** *** Fuel *)

(** A loop that ended keeps its result with more fuel. *)
Lemma loop_more_fuel {S A : Type} (body : S -> M (S + A)) (n m : nat)
  (s : S) (w w' : world) (a : A) :
  loop n body s w = Ret a w' -> n <= m -> loop m body s w = Ret a w'.
Proof.
  revert m s w. induction n as [|n IH]; intros m s w H Hm; [discriminate|].
  destruct m as [|m]; [lia|]. cbn in *.
  destruct (body s w) as [[s1|a1] w1| |]; try discriminate; [|exact H].
  apply IH; [exact H | lia].
Qed.

Lemma validate_keeps_input (api_key : pyval) (w : world) :
  exists b w',
    validate_openrouter_api_key api_key w = Ret b w' /\ stdin w' = stdin w.
Proof.
  destruct (truthy api_key) eqn:Hk.
  - rewrite (validate_truthy_key _ _ Hk).
    destruct (http w (length (sent w)) (auth_key_request api_key));
      eexists; eexists; split; reflexivity.
  - rewrite (validate_falsy_key _ _ Hk). eauto.
Qed.

(** A round of the key loop reads one line and either ends the loop or
    asks again; it never raises. *)
Lemma api_key_round_reads_a_line (line : string) (rest : list string)
  (w : world) :
  stdin w = line :: rest ->
  exists r w', api_key_round tt w = Ret r w' /\ stdin w' = rest.
Proof.
  intros Hin.
  unfold api_key_round, try_except, try_catch, bind, prompt, print, emit, readline.
  cbn -[validate_openrouter_api_key PyStr.strip]. rewrite Hin.
  match goal with
  | |- context [validate_openrouter_api_key ?k ?x] =>
      destruct (validate_keeps_input k x) as [b [w1 [Hv Hs]]]; rewrite Hv
  end.
  destruct b; eexists; eexists; split; try reflexivity; exact Hs.
Qed.

(** At the end of the input the key loop reads an empty key, which is
    refused without a request, and asks again. *)
Lemma api_key_round_at_end_of_input (w : world) :
  stdin w = [] ->
  exists w', api_key_round tt w = Ret (inl tt) w'
             /\ stdin w' = [] /\ sent w' = sent w /\ store w' = store w.
Proof.
  intros Hin.
  unfold api_key_round, try_except, try_catch, bind, prompt, print, emit, readline.
  cbn. rewrite Hin. cbn. eexists. split; [reflexivity|]. cbn. auto.
Qed.

(** So from there on it never ends, whatever the fuel. *)
Lemma api_key_loop_at_end_of_input (n : nat) (w : world) :
  stdin w = [] -> loop n api_key_round tt w = Diverge.
Proof.
  revert w. induction n as [|n IH]; intros w Hin; [reflexivity|].
  cbn. destruct (api_key_round_at_end_of_input w Hin) as [w' [Hr [Hs _]]].
  rewrite Hr. apply IH. exact Hs.
Qed.

(** The fuel [while_true] gives the key loop decides its outcome: more
    fuel changes nothing. *)
Lemma api_key_loop_fuel_is_enough (n : nat) (w : world) :
  length (stdin w) < n ->
  loop n api_key_round tt w = while_true api_key_round tt w.
Proof.
  unfold while_true.
  remember (stdin w) as input eqn:Hin. symmetry in Hin.
  revert n w Hin. induction input as [|line rest IH]; intros n w Hin Hn.
  - now rewrite !api_key_loop_at_end_of_input.
  - destruct n as [|n]; [cbn in Hn; lia|]. cbn.
    destruct (api_key_round_reads_a_line _ _ _ Hin) as [[[]|k] [w' [Hr Hs]]];
      rewrite Hr; [|reflexivity].
    apply IH; [exact Hs | cbn in Hn; lia].
Qed.

(** The loop that reads the error text goes round for ever once the
    input has ended without a [DONE] line. *)
Lemma done_loop_at_end_of_input (n : nat) (lines : list string) (w : world) :
  stdin w = [] -> loop n done_round lines w = Diverge.
Proof.
  revert lines w. induction n as [|n IH]; intros lines w Hin; [reflexivity|].
  cbn. unfold done_round, bind, readline. rewrite Hin. cbn.
  apply IH. exact Hin.
Qed.

(** *** A run from end to end *)

(** [analyze --text "NullPointerException at line 5"] with a
    configuration in place and a 200 answer: the content of the answer
    is what is printed last, and the program exits with status 0. *)
Example analyze_prints_the_answer :
  exists w',
    main Sample.json_loads
      (fun _ => Parsed (mkNamespace (Some "analyze") None
                          (Some "NullPointerException at line 5") None None None))
      ["analyze"; "--text"; "NullPointerException at line 5"]
      (Sample.world_of [] (File (Json.dumps Sample.config))
         (Sample.always
            (Sample.answer 200 (Ok (Sample.completion (PStr "## Cause"))))))
    = Exits 0 w'
    /\ last (out w') HelpText = Stdout [Fmt (PStr "## Cause")]
    /\ sent w' = [chat_request (PStr "sk-or-1") (PStr "openai/gpt-4o")
                    (analyze_prompt "NullPointerException at line 5")].
Proof.
  eexists. split; [vm_compute; reflexivity|]. split; vm_compute; reflexivity.
Qed.

(** *** Relations every step of a computation respects *)

Section Respect.

Variable R : world -> world -> Prop.
Hypothesis R_refl : forall w, R w w.
Hypothesis R_trans : forall w1 w2 w3, R w1 w2 -> R w2 w3 -> R w1 w3.

Lemma respects_ret {A : Type} (a : A) : respects R (ret a).
Proof. intros w. apply R_refl. Qed.

Lemma respects_lift {A : Type} (a : attempt A) : respects R (lift a).
Proof. intros w. unfold lift. destruct a; apply R_refl. Qed.

Lemma respects_bind {A B : Type} (m : M A) (k : A -> M B) :
  respects R m -> (forall a, respects R (k a)) -> respects R (bind m k).
Proof.
  intros Hm Hk w. unfold bind. specialize (Hm w).
  destruct (m w) as [a w1|e w1|]; cbn in *; [|exact Hm|exact I].
  specialize (Hk a w1). destruct (k a w1); cbn in *; eauto.
Qed.

Lemma respects_try_catch {A : Type} (catches : exn -> bool) (body : M A)
  (handler : exn -> M A) :
  respects R body -> (forall e, respects R (handler e)) ->
  respects R (try_catch catches body handler).
Proof.
  intros Hb Hh w. unfold try_catch. specialize (Hb w).
  destruct (body w) as [a w1|e w1|]; cbn in *; [exact Hb| |exact I].
  destruct (catches e); [|exact Hb].
  specialize (Hh e w1). destruct (handler e w1); cbn in *; eauto.
Qed.

Lemma respects_loop {S A : Type} (body : S -> M (S + A)) (n : nat) (s : S) :
  (forall s', respects R (body s')) -> respects R (loop n body s).
Proof.
  intros Hb. revert s. induction n as [|n IH]; intros s w; [exact I|].
  cbn. specialize (Hb s w).
  destruct (body s w) as [[s1|a] w1|e w1|]; cbn in *; try assumption.
  specialize (IH s1 w1). destruct (loop n body s1 w1); cbn in *; eauto.
Qed.

Lemma respects_while_true {S A : Type} (body : S -> M (S + A)) (s : S) :
  (forall s', respects R (body s')) -> respects R (while_true body s).
Proof. intros Hb w. unfold while_true. now apply respects_loop. Qed.

(** Steps that only write output. *)

Hypothesis R_out : forall w l, R w (set_out l w).

Lemma respects_emit (e : event) : respects R (emit e).
Proof. intros w. apply R_out. Qed.

Lemma respects_print_models (models : list pyval) (i : Z) :
  respects R (print_models i models).
Proof.
  revert i. induction models as [|model rest IH]; intros i; cbn.
  - apply respects_ret.
  - apply respects_bind; [apply respects_emit | intros _; apply IH].
Qed.

Lemma respects_start_monitoring (config : pyval) :
  respects R (start_monitoring config).
Proof.
  unfold start_monitoring, log, print.
  repeat first
    [ apply respects_bind; [|intros ?]
    | apply respects_emit
    | apply respects_lift
    | apply respects_ret
    | match goal with |- respects R (if ?b then _ else _) => destruct b end ].
Qed.

(** Steps that also send requests. *)

Hypothesis R_sent : forall w l, R w (set_sent l w).

Lemma respects_send (req : request) : respects R (send req).
Proof.
  intros w. unfold send.
  destruct (http w (length (sent w)) req); cbn; apply R_sent.
Qed.

Lemma respects_validate (api_key : pyval) :
  respects R (validate_openrouter_api_key api_key).
Proof.
  unfold validate_openrouter_api_key, try_except, log.
  destruct (negb (truthy api_key)); [apply respects_ret|].
  apply respects_try_catch; [|intros e];
    repeat first
      [ apply respects_bind; [|intros ?]
      | apply respects_emit | apply respects_send | apply respects_ret ].
Qed.

Lemma respects_get_available_models (api_key : pyval) :
  respects R (get_available_models api_key).
Proof.
  unfold get_available_models, get_available_models_try, try_except, log.
  apply respects_try_catch; [|intros e];
    repeat first
      [ apply respects_bind; [|intros ?]
      | apply respects_emit | apply respects_send | apply respects_ret
      | apply respects_lift
      | match goal with
        | |- respects R (if ?b then _ else _) => destruct b
        | |- respects R (match ?l with [] => _ | _ :: _ => _ end) => destruct l
        end ].
Qed.

Lemma respects_chat (config : pyval) (prompt task : string) :
  respects R (chat config prompt task).
Proof.
  unfold chat, chat_try, try_except, log.
  apply respects_try_catch; [|intros e];
    repeat first
      [ apply respects_bind; [|intros ?]
      | apply respects_emit | apply respects_send | apply respects_ret
      | apply respects_lift
      | match goal with |- respects R (if ?b then _ else _) => destruct b end ].
Qed.

(** Steps that also read input. *)

Hypothesis R_stdin : forall w l, R w (set_stdin l w).

Lemma respects_readline : respects R readline.
Proof.
  intros w. unfold readline. destruct (stdin w); cbn; [apply R_refl|apply R_stdin].
Qed.

Lemma respects_api_key_round (u : unit) : respects R (api_key_round u).
Proof.
  unfold api_key_round, try_except, log, print, prompt.
  apply respects_try_catch; [|intros e];
    repeat first
      [ apply respects_bind; [|intros ?]
      | apply respects_emit | apply respects_readline | apply respects_ret
      | apply respects_validate
      | match goal with |- respects R (if ?b then _ else _) => destruct b end ].
Qed.

Lemma respects_model_round (models : list pyval) (u : unit) :
  respects R (model_round models u).
Proof.
  unfold model_round, log, print, prompt.
  apply respects_try_catch; [|intros e];
    repeat first
      [ apply respects_bind; [|intros ?]
      | apply respects_emit | apply respects_readline | apply respects_ret
      | apply respects_lift
      | match goal with |- respects R (if ?b then _ else _) => destruct b end ].
Qed.

Lemma respects_select_model (api_key : pyval) :
  respects R (select_model api_key).
Proof.
  unfold select_model, print.
  repeat first
    [ apply respects_bind; [|intros ?]
    | apply respects_emit | apply respects_get_available_models
    | apply respects_print_models
    | apply respects_while_true; intros ?; apply respects_model_round ].
Qed.

Lemma respects_done_round (lines : list string) : respects R (done_round lines).
Proof.
  unfold done_round.
  apply respects_bind; [apply respects_readline|intros raw].
  destruct (PyStr.strip raw =? "DONE"); apply respects_ret.
Qed.

Lemma respects_read_error_text (args : namespace) :
  respects R (read_error_text args).
Proof.
  unfold read_error_text, print.
  apply respects_bind.
  - destruct (given (arg_file args)); [|apply respects_ret].
    intros w. apply R_refl.
  - intros found. destruct found.
    + intros w. unfold read_file.
      destruct (files w _) as [[content|e]|]; apply R_refl.
    + destruct (given (arg_text args)); [apply respects_ret|].
      repeat first
        [ apply respects_bind; [|intros ?]
        | apply respects_emit | apply respects_ret
        | apply respects_while_true; intros ?; apply respects_done_round ].
Qed.

(** Steps that also write the configuration. *)

Hypothesis R_store : forall w c, c <> NoDir -> R w (set_store c w).

Lemma respects_save_config (config : pyval) : respects R (save_config config).
Proof.
  intros w. unfold save_config. destruct (store w); cbn;
    [apply R_refl | apply R_store; discriminate | apply R_store; discriminate].
Qed.

Lemma respects_finish_setup (items : list (string * pyval)) :
  respects R (finish_setup items).
Proof.
  unfold finish_setup, print.
  repeat first
    [ apply respects_bind; [|intros ?]
    | apply respects_emit | apply respects_save_config | apply respects_ret ].
Qed.

End Respect.

Lemma same_refl {X : Type} (f : world -> X) (w : world) : same f w w.
Proof. reflexivity. Qed.

Lemma same_trans {X : Type} (f : world -> X) (w1 w2 w3 : world) :
  same f w1 w2 -> same f w2 w3 -> same f w1 w3.
Proof. unfold same. congruence. Qed.

Lemma after_and {A : Type} (r : result A) (P Q : world -> Prop) :
  after r P -> after r Q -> after r (fun w => P w /\ Q w).
Proof. destruct r; cbn; auto. Qed.

(** *** Monitoring *)

(** X1: [start_monitoring] starts nothing: whatever the configuration
    holds and however the call ends, no line of input has been read, no
    request has been sent and the configuration file is as it was. *)
Theorem start_monitoring_only_reports (config : pyval) (w : world) :
  after (start_monitoring config w)
    (fun w' => stdin w' = stdin w /\ sent w' = sent w /\ store w' = store w).
Proof.
  repeat apply after_and.
  - apply (respects_start_monitoring (same stdin) (same_refl _) (same_trans _)).
    intros; reflexivity.
  - apply (respects_start_monitoring (same sent) (same_refl _) (same_trans _)).
    intros; reflexivity.
  - apply (respects_start_monitoring (same store) (same_refl _) (same_trans _)).
    intros; reflexivity.
Qed.

(** X2: monitoring is off unless the [error_monitoring] settings hold a
    truthy [enabled]: with no settings, no [enabled] or a falsy one,
    [start_monitoring] logs that monitoring is disabled and prints
    nothing.  When it is on, the interval and the patterns reported are
    those of the settings, 300 and the two patterns [error:] and
    [exception] where the settings have none. *)
Theorem monitoring_is_off_unless_enabled
  (d settings : list (string * pyval)) (w : world) :
  monitoring_settings d = PDict settings ->
  start_monitoring (PDict d) w
  = Ret tt
      (if switched_on settings then
         say (Stdout [Lit "Use 'devops-agent analyze-logs <log_file>' to manually analyze logs."])
           (say (Stdout [Lit "Error monitoring is now active in the background."])
              (say (Log INFO [Lit "Watching for patterns: ";
                              Fmt (or_default (lookup "log_patterns" settings)
                                     (PList [PStr "error:"; PStr "exception"]))])
                 (say (Log INFO [Lit "Monitoring active with scan interval: ";
                                 Fmt (or_default (lookup "scan_interval" settings)
                                        (PInt 300));
                                 Lit "s"])
                    (say (Log INFO [Lit "Starting error monitoring..."]) w))))
       else
         say (Log INFO [Lit "Error monitoring is disabled in configuration."])
           (say (Log INFO [Lit "Starting error monitoring..."]) w)).
Proof.
  intros Hs. unfold monitoring_settings in Hs.
  unfold start_monitoring, bind, log, print, emit, lift, ret, switched_on, or_default.
  cbn [method_get].
  destruct (lookup "error_monitoring" d) as [x|]; subst; cbn [method_get].
  - destruct (lookup "enabled" settings) as [v|]; [|reflexivity].
    destruct (truthy v); [|reflexivity]. cbn [negb].
    destruct (lookup "scan_interval" settings), (lookup "log_patterns" settings);
      reflexivity.
  - injection Hs as <-. reflexivity.
Qed.

(** X3: a configuration that is not an object, or whose
    [error_monitoring] entry is not one, makes [start_monitoring] raise
    [AttributeError] after its first log line; nothing catches it, so
    the [monitor] command ends the program with status 1. *)
Theorem monitor_raises_on_malformed_configuration
  (json_loads : string -> attempt pyval) (argparse : list string -> parsed)
  (argv : list string) (args : namespace) (content : string)
  (config bad : pyval) (w : world) :
  parse_args argparse argv = Parsed args ->
  command args = Some "monitor" ->
  store w = File content ->
  json_loads content = Ok config ->
  is_dict bad = false ->
  (config = bad \/ exists d, config = PDict d /\ monitoring_settings d = bad) ->
  start_monitoring config w
  = Raise (no_attribute_get bad) (say (Log INFO [Lit "Starting error monitoring..."]) w)
  /\ main json_loads argparse argv w
     = Exits 1
         (say (Traceback (no_attribute_get bad))
            (say (Log INFO [Lit "Starting error monitoring..."])
               (say (Log INFO [Lit "Configuration loaded successfully."]) w))).
Proof.
  intros Hp Hc Hs Hj Hbad Hconfig.
  assert (Hraise : forall w0,
             start_monitoring config w0
             = Raise (no_attribute_get bad)
                 (say (Log INFO [Lit "Starting error monitoring..."]) w0)).
  { intros w0. unfold start_monitoring, bind, log, emit, lift.
    destruct Hconfig as [-> | [d [-> Hm]]].
    - destruct bad; try discriminate; reflexivity.
    - unfold monitoring_settings in Hm. cbn [method_get].
      destruct (lookup "error_monitoring" d) as [x|]; subst bad;
        [|discriminate].
      destruct x; try discriminate; reflexivity. }
  split; [apply Hraise|].
  unfold main. rewrite Hp. unfold run. rewrite Hc. cbn [given negb String.eqb].
  unfold bind at 1. rewrite (load_config_parsed _ _ _ _ Hs Hj).
  unfold execute_command, command_is. rewrite Hc.
  cbn [String.eqb Ascii.eqb Bool.eqb].
  unfold bind. rewrite Hraise. reflexivity.
Qed.

(** *** The API key loop *)

Lemma api_key_round_unfolded (line : string) (rest : list string) (w : world) :
  stdin w = line :: rest ->
  let key := PyStr.strip line in
  let w1 := say (Stdout [Lit "Validating API key..."])
              (set_stdin rest (say key_prompt w)) in
  let w2 := set_sent (sent w ++ [auth_key_request (PStr key)])%list w1 in
  api_key_round tt w =
  if truthy (PStr key) then
    match http w (length (sent w)) (auth_key_request (PStr key)) with
    | Responds r =>
        if (status_code r =? 200)%Z
        then Ret (inr key) (say (Stdout [Lit "API key validation successful!"]) w2)
        else Ret (inl tt) (say (Stdout [Lit "Invalid API key. Please try again."]) w2)
    | ConnectionFails e =>
        Ret (inl tt)
            (say (Stdout [Lit "Invalid API key. Please try again."])
               (say (Log ERROR [Lit "API key validation error: ";
                                Fmt (PStr (exn_msg e))]) w2))
    end
  else Ret (inl tt) (say (Stdout [Lit "Invalid API key. Please try again."]) w1).
Proof.
  intros Hin key w1 w2.
  unfold api_key_round, try_except, try_catch, bind, prompt, print, emit, readline.
  cbn -[validate_openrouter_api_key PyStr.strip truthy]. rewrite Hin.
  fold key. fold key_prompt.
  change (set_out _ (set_stdin rest (set_out _ w))) with w1.
  destruct (truthy (PStr key)) eqn:Hk.
  - rewrite (validate_truthy_key _ _ Hk).
    change (http w1) with (http w). change (sent w1) with (sent w). fold w2.
    destruct (http w (length (sent w)) (auth_key_request (PStr key))) as [e|r];
      [reflexivity|].
    destruct (status_code r =? 200)%Z; reflexivity.
  - rewrite (validate_falsy_key _ _ Hk). reflexivity.
Qed.

Lemma api_key_loop_accepts_validated (n : nat) (w w' : world) (key : string) :
  loop n api_key_round tt w = Ret key w' ->
  key <> ""
  /\ (exists line, In line (stdin w) /\ key = PyStr.strip line)
  /\ just_accepted key w'.
Proof.
  revert w. induction n as [|n IH]; intros w H; [discriminate|].
  cbn in H. destruct (stdin w) as [|line rest] eqn:Hin.
  - destruct (api_key_round_at_end_of_input w Hin) as [w1 [Hr [Hs _]]].
    rewrite Hr in H. rewrite (api_key_loop_at_end_of_input n w1 Hs) in H.
    discriminate.
  - assert (Hnext : forall w1, stdin w1 = rest ->
                      loop n api_key_round tt w1 = Ret key w' ->
                      key <> ""
                      /\ (exists l, In l (line :: rest) /\ key = PyStr.strip l)
                      /\ just_accepted key w').
    { intros w1 Hs1 H1. destruct (IH w1 H1) as [Hk [[l [Hl He]] Ha]].
      split; [exact Hk|]. split; [|exact Ha].
      exists l. split; [right; now rewrite <- Hs1|exact He]. }
    rewrite (api_key_round_unfolded _ _ _ Hin) in H. cbn zeta in H.
    destruct (truthy (PStr (PyStr.strip line))) eqn:Hk.
    + destruct (http _ _ _) as [e|r] eqn:Hh.
      * eapply Hnext; [|exact H]; reflexivity.
      * destruct (status_code r =? 200)%Z eqn:Hst.
        -- injection H as <- <-. split; [|split].
           ++ intros He. rewrite He in Hk. discriminate.
           ++ exists line. split; [now left|reflexivity].
           ++ eexists _, r. split; [reflexivity|].
              split; [exact Hh | now apply Z.eqb_eq].
        -- eapply Hnext; [|exact H]; reflexivity.
    + eapply Hnext; [|exact H]; reflexivity.
Qed.

(** X4: the key the API key loop hands on is never empty, is one of
    the input lines stripped of surrounding whitespace, and was checked
    last: the last request sent is the GET to [/auth/key] with that key
    and its answer had status 200. *)
Theorem api_key_loop_returns_a_validated_key (w w' : world) (key : string) :
  while_true api_key_round tt w = Ret key w' ->
  key <> ""
  /\ (exists line, In line (stdin w) /\ key = PyStr.strip line)
  /\ just_accepted key w'.
Proof. unfold while_true. apply api_key_loop_accepts_validated. Qed.

Lemma api_key_round_blank (line : string) (rest : list string) (w : world) :
  stdin w = line :: rest -> blank line ->
  exists w', api_key_round tt w = Ret (inl tt) w'
             /\ stdin w' = rest /\ sent w' = sent w.
Proof.
  intros Hin Hb. rewrite (api_key_round_unfolded _ _ _ Hin). cbn zeta.
  unfold blank in Hb. rewrite Hb. cbn [truthy String.eqb negb].
  eexists. split; [reflexivity|]. split; reflexivity.
Qed.

Lemma api_key_loop_blank_input (n : nat) (w : world) :
  Forall blank (stdin w) -> loop n api_key_round tt w = Diverge.
Proof.
  revert w. induction n as [|n IH]; intros w Hb; [reflexivity|].
  destruct (stdin w) as [|line rest] eqn:Hin.
  - now apply api_key_loop_at_end_of_input.
  - inversion Hb as [|? ? Hline Hrest]; subst.
    destruct (api_key_round_blank _ _ _ Hin Hline) as [w1 [Hr [Hs _]]].
    cbn. rewrite Hr. apply IH. now rewrite Hs.
Qed.

Lemma bind_print {A : Type} (line : list piece) (k : unit -> M A) (w : world) :
  bind (print line) k w = k tt (say (Stdout line) w).
Proof. reflexivity. Qed.

Lemma first_time_setup_blank_input (w : world) :
  Forall blank (stdin w) -> first_time_setup w = Diverge.
Proof.
  intros Hb. unfold first_time_setup. rewrite !bind_print.
  unfold bind, while_true. rewrite api_key_loop_blank_input; [reflexivity|].
  exact Hb.
Qed.

(** X5: with no configuration to load (no directory, no file, or a
    file that does not parse) and an input that has ended, or holds only
    blank lines, no command ever finishes: the API key loop of the
    setup asks again for ever. *)
Theorem no_configuration_and_no_input_never_exits
  (json_loads : string -> attempt pyval) (argparse : list string -> parsed)
  (argv : list string) (args : namespace) (w : world) :
  parse_args argparse argv = Parsed args ->
  given (command args) = true ->
  (store w = NoDir \/ store w = NoFile
   \/ exists content e, store w = File content /\ json_loads content = Err e) ->
  Forall blank (stdin w) ->
  main json_loads argparse argv w = NeverExits.
Proof.
  intros Hp Hc Hs Hb. unfold main. rewrite Hp.
  assert (Hload : load_config json_loads w = Diverge).
  { destruct Hs as [Hs | [Hs | [content [e [Hs He]]]]].
    - rewrite (load_config_missing _ _ (or_introl Hs)).
      now apply first_time_setup_blank_input.
    - rewrite (load_config_missing _ _ (or_intror Hs)).
      now apply first_time_setup_blank_input.
    - rewrite (load_config_unreadable _ _ _ _ Hs He).
      now apply first_time_setup_blank_input. }
  unfold run. rewrite Hc. cbn [negb]. unfold bind at 1. rewrite Hload.
  reflexivity.
Qed.

(** *** Listing and choosing a model *)

Lemma collect_ids_truthy (items acc ids : list pyval) :
  collect_ids items acc = Ok ids ->
  Forall (fun id => truthy id = true) acc ->
  Forall (fun id => truthy id = true) ids.
Proof.
  revert acc. induction items as [|item rest IH]; intros acc H Hacc; cbn in H.
  - now injection H as <-.
  - destruct (method_get item "id" PNone) as [model_id|]; [|discriminate].
    apply (IH _ H). destruct (truthy model_id) eqn:Ht; [|exact Hacc].
    apply Forall_app. split; [exact Hacc|]. constructor; [exact Ht|constructor].
Qed.

Lemma fallback_models_truthy :
  Forall (fun id => truthy id = true) fallback_models.
Proof. repeat constructor. Qed.

(** X6: the list [get_available_models] returns is never empty and
    holds no falsy entry (no empty string, no [None]): the numbered list
    of the setup always offers at least one model. *)
Theorem models_list_is_never_empty (api_key : pyval) (w w' : world)
  (models : list pyval) :
  get_available_models api_key w = Ret models w' ->
  models <> [] /\ Forall (fun id => truthy id = true) models.
Proof.
  rewrite models_after_try, models_try_unfolded. cbn zeta.
  pose proof fallback_models_truthy as Hf.
  assert (Hne : fallback_models <> []) by discriminate.
  destruct (http w _ _) as [e|r].
  - intros H. injection H as <- _. auto.
  - destruct (status_code r =? 200)%Z.
    + destruct (extract_ids r) as [ids|e] eqn:Hx.
      * destruct ids as [|id ids].
        -- intros H. injection H as <- _. auto.
        -- intros H. injection H as <- _. split; [discriminate|].
           unfold extract_ids in Hx.
           destruct (json r) as [models_data|]; [|discriminate].
           destruct (method_get models_data "data" (PList [])) as [data|];
             [|discriminate].
           destruct (iterate data) as [items|]; [|discriminate].
           apply (collect_ids_truthy _ _ _ Hx). constructor.
      * intros H. injection H as <- _. auto.
    + intros H. injection H as <- _. auto.
Qed.

Lemma collect_ids_stops_at_other_entry (items acc : list pyval) :
  existsb (fun item => negb (is_dict item)) items = true ->
  exists bad, In bad items /\ is_dict bad = false
              /\ collect_ids items acc = Err (no_attribute_get bad).
Proof.
  revert acc. induction items as [|item rest IH]; intros acc H; [discriminate|].
  cbn in H. destruct (is_dict item) eqn:Hd; cbn in H.
  - destruct item; try discriminate. cbn [collect_ids method_get].
    destruct (lookup "id" items) as [model_id|];
      [ destruct (IH (if truthy model_id
                      then (acc ++ [model_id])%list else acc) H)
          as [bad [Hin [Hb He]]]
      | destruct (IH acc H) as [bad [Hin [Hb He]]] ];
      exists bad; (split; [now right | split; [exact Hb | exact He]]).
  - exists item. split; [now left|]. split; [exact Hd|].
    destruct item; try discriminate; reflexivity.
Qed.

(** X7: one entry of the listing that is not an object spoils all of
    it.  On a 200 answer, if anything the loop over [data] visits is not
    an object (an entry of the array, or the keys or characters when
    [data] is an object or a string), the identifiers collected so far
    are dropped and the fallback list is returned. *)
Theorem one_malformed_entry_gives_the_fallback
  (api_key : pyval) (w : world) (r : response) (models_data data : pyval)
  (items : list pyval) :
  http w (length (sent w)) (models_request api_key) = Responds r ->
  status_code r = 200%Z ->
  json r = Ok models_data ->
  method_get models_data "data" (PList []) = Ok data ->
  iterate data = Ok items ->
  existsb (fun item => negb (is_dict item)) items = true ->
  exists bad,
    In bad items /\ is_dict bad = false
    /\ get_available_models api_key w
       = Ret fallback_models
           (say (Log ERROR [Lit "Error fetching models: ";
                            Fmt (PStr (exn_msg (no_attribute_get bad)))])
              (set_sent (sent w ++ [models_request api_key])%list w)).
Proof.
  intros Hh Hs Hj Hd Hi Hbad.
  destruct (collect_ids_stops_at_other_entry items [] Hbad) as [bad [Hin [Hb He]]].
  exists bad. split; [exact Hin|]. split; [exact Hb|].
  rewrite models_after_try, models_try_unfolded. cbn zeta.
  rewrite Hh, Hs. unfold extract_ids. rewrite Hj, Hd, Hi, He. reflexivity.
Qed.

Lemma models_sends_one_request (api_key : pyval) (w : world) :
  exists models w',
    get_available_models api_key w = Ret models w'
    /\ sent w' = (sent w ++ [models_request api_key])%list
    /\ stdin w' = stdin w /\ store w' = store w /\ files w' = files w.
Proof.
  rewrite models_after_try, models_try_unfolded. cbn zeta.
  destruct (http w _ _) as [e|r]; [eauto 10|].
  destruct (status_code r =? 200)%Z; [|eauto 10].
  destruct (extract_ids r) as [[|x ids]|]; eauto 10.
Qed.

Lemma print_models_returns (models : list pyval) (i : Z) (w : world) :
  exists w',
    print_models i models w = Ret tt w'
    /\ stdin w' = stdin w /\ sent w' = sent w
    /\ store w' = store w /\ files w' = files w.
Proof.
  revert i w. induction models as [|model rest IH]; intros i w;
    cbn [print_models].
  - exists w. repeat split.
  - rewrite bind_print.
    destruct (IH (i + 1)%Z (say (Stdout [Fmt (PInt i); Lit ". "; Fmt model]) w))
      as [w' [Hr H]].
    exists w'. split; [exact Hr | exact H].
Qed.

Lemma model_round_blank (models : list pyval) (w : world) :
  (stdin w = [] \/ exists line rest, stdin w = line :: rest /\ blank line) ->
  exists w', model_round models tt w = Ret (inr (PStr "")) w'.
Proof.
  intros [Hin | [line [rest [Hin Hb]]]].
  - rewrite (model_round_at_end_of_input _ _ Hin). eauto.
  - rewrite (model_round_unfolded _ _ _ _ Hin). cbn zeta.
    unfold blank in Hb. rewrite Hb. cbn. eauto.
Qed.

(** X8: an empty answer to the model prompt is taken as the model.  If
    the input has ended when the model is asked for, or the next line is
    blank, [select_model] returns the empty string: it is not digits,
    so it counts as a custom model identifier. *)
Theorem empty_answer_selects_the_empty_model (api_key : pyval) (w : world) :
  (stdin w = [] \/ exists line rest, stdin w = line :: rest /\ blank line) ->
  exists w', select_model api_key w = Ret (PStr "") w'.
Proof.
  intros Hin. unfold select_model. rewrite bind_print. unfold bind at 1.
  destruct (models_sends_one_request api_key
              (say (Stdout [Lit PyStr.nl; Lit "Fetching available models..."]) w))
    as [models [w1 [Hm [_ [Hs1 _]]]]].
  rewrite Hm. rewrite bind_print. unfold bind.
  destruct (print_models_returns models 1
              (say (Stdout [Lit PyStr.nl; Lit "Available Models:"]) w1))
    as [w2 [Hp [Hs2 _]]].
  rewrite Hp.
  assert (Hin2 : stdin w2 = []
                 \/ exists line rest, stdin w2 = line :: rest /\ blank line).
  { rewrite Hs2. cbn. rewrite Hs1. exact Hin. }
  destruct (model_round_blank models w2 Hin2) as [w3 Hr].
  unfold while_true. cbn. rewrite Hr. eauto.
Qed.

(** *** Where [analyze] takes the error text from *)

Lemma read_error_text_without_file (args : namespace) (w : world) :
  given (arg_file args) = false \/ files w (or_empty (arg_file args)) = None ->
  read_error_text args w
  = (if given (arg_text args) then ret (or_empty (arg_text args))
     else
       print [Lit "Enter the error text to analyze (type 'DONE' on a new line when finished):"] ;;
       lines <- while_true done_round [] ;;
       ret (PyStr.join PyStr.nl lines)) w.
Proof.
  intros H. unfold read_error_text, path_exists. unfold bind at 1.
  destruct (given (arg_file args)); [|reflexivity].
  destruct H as [H|H]; [discriminate|]. rewrite H. reflexivity.
Qed.

(** X9: the error text comes from the file when [--file] names a path
    that exists, whatever [--text] says; a read that fails is not
    caught.  A [--file] that does not exist is passed over without a
    word: the text of [--text] is used.  In these cases nothing is
    printed, read or sent. *)
Theorem error_text_file_before_text (args : namespace) (w : world) :
  (forall content,
      given (arg_file args) = true ->
      files w (or_empty (arg_file args)) = Some (Ok content) ->
      read_error_text args w = Ret content w)
  /\ (forall e,
        given (arg_file args) = true ->
        files w (or_empty (arg_file args)) = Some (Err e) ->
        read_error_text args w = Raise e w)
  /\ (given (arg_file args) = false \/ files w (or_empty (arg_file args)) = None ->
      given (arg_text args) = true ->
      read_error_text args w = Ret (or_empty (arg_text args)) w).
Proof.
  split; [|split].
  - intros content Hf Hc. unfold read_error_text, path_exists, read_file, bind.
    rewrite Hf, Hc. cbv beta iota. rewrite Hc. reflexivity.
  - intros e Hf Hc. unfold read_error_text, path_exists, read_file, bind.
    rewrite Hf, Hc. cbv beta iota. rewrite Hc. reflexivity.
  - intros Hf Ht. rewrite (read_error_text_without_file _ _ Hf), Ht. reflexivity.
Qed.

Lemma done_round_step (acc : list string) (line : string) (rest : list string)
  (w : world) :
  stdin w = line :: rest ->
  done_round acc w
  = Ret (if PyStr.strip line =? "DONE" then inr acc
         else inl (acc ++ [PyStr.strip line])%list)
        (set_stdin rest w).
Proof.
  intros Hin. unfold done_round, bind, readline. rewrite Hin.
  destruct (PyStr.strip line =? "DONE"); reflexivity.
Qed.

Lemma done_loop_reads_up_to_done (lines : list string) (done : string)
  (rest : list string) (acc : list string) (n : nat) (w : world) :
  stdin w = (lines ++ done :: rest)%list ->
  Forall not_done lines ->
  PyStr.strip done = "DONE" ->
  length lines < n ->
  exists w',
    loop n done_round acc w = Ret (acc ++ map PyStr.strip lines)%list w'
    /\ stdin w' = rest /\ sent w' = sent w /\ out w' = out w
    /\ store w' = store w.
Proof.
  revert acc n w. induction lines as [|line lines IH]; intros acc n w Hin Hnd Hd Hn.
  - destruct n as [|n]; [lia|]. cbn in Hin. cbn [loop].
    rewrite (done_round_step _ _ _ _ Hin), Hd. cbn.
    eexists. rewrite app_nil_r. repeat split.
  - destruct n as [|n]; [cbn in Hn; lia|]. cbn in Hin. cbn [loop].
    rewrite (done_round_step _ _ _ _ Hin).
    inversion Hnd as [|? ? Hline Hrest]; subst.
    apply String.eqb_neq in Hline. rewrite Hline.
    destruct (IH (acc ++ [PyStr.strip line])%list n (set_stdin (lines ++ done :: rest)%list w))
      as [w' [Hr H]]; [reflexivity | exact Hrest | exact Hd | cbn in Hn; lia |].
    exists w'. rewrite Hr, <- app_assoc. split; [reflexivity | exact H].
Qed.

(** X10: asked on the standard input, the error text is made of the
    lines before the first line that reads [DONE] once stripped: each
    is stripped, they are joined by newlines, the [DONE] line is
    dropped, and the lines after it are left unread. *)
Theorem error_text_is_read_up_to_DONE
  (args : namespace) (lines : list string) (done : string) (rest : list string)
  (w : world) :
  asks_for_text args w ->
  stdin w = (lines ++ done :: rest)%list ->
  Forall not_done lines ->
  PyStr.strip done = "DONE" ->
  exists w',
    read_error_text args w
    = Ret (PyStr.join PyStr.nl (map PyStr.strip lines)) w'
    /\ stdin w' = rest /\ sent w' = sent w /\ store w' = store w.
Proof.
  intros [Hf Ht] Hin Hnd Hd.
  rewrite (read_error_text_without_file _ _ Hf), Ht. rewrite bind_print.
  unfold bind, while_true.
  destruct (done_loop_reads_up_to_done lines done rest [] 
              (S (length (stdin (say (Stdout [Lit "Enter the error text to analyze (type 'DONE' on a new line when finished):"]) w))))
              (say (Stdout [Lit "Enter the error text to analyze (type 'DONE' on a new line when finished):"]) w))
    as [w' [Hr [H1 [H2 [_ H3]]]]]; [exact Hin | exact Hnd | exact Hd | |].
  - cbn [stdin say set_out]. rewrite Hin, length_app. cbn. lia.
  - rewrite Hr. exists w'. cbn [app]. repeat split; assumption.
Qed.

Lemma done_loop_without_done (n : nat) (acc : list string) (w : world) :
  Forall not_done (stdin w) -> loop n done_round acc w = Diverge.
Proof.
  revert acc w. induction n as [|n IH]; intros acc w Hnd; [reflexivity|].
  destruct (stdin w) as [|line rest] eqn:Hin.
  - now apply done_loop_at_end_of_input.
  - cbn [loop]. rewrite (done_round_step _ _ _ _ Hin).
    inversion Hnd as [|? ? Hline Hrest]; subst.
    apply String.eqb_neq in Hline. rewrite Hline. apply IH. exact Hrest.
Qed.

(** X11: without a line that reads [DONE], [analyze] asked on the
    standard input never gets to the analysis: the reading loop goes on
    after the input has ended, and no request is ever sent. *)
Theorem analyze_without_DONE_never_finishes
  (config : pyval) (args : namespace) (w : world) :
  command args = Some "analyze" ->
  asks_for_text args w ->
  Forall not_done (stdin w) ->
  execute_command config args w = Diverge.
Proof.
  intros Hc [Hf Ht] Hnd. unfold execute_command, command_is. rewrite Hc.
  cbn [String.eqb Ascii.eqb Bool.eqb]. unfold bind at 1.
  rewrite (read_error_text_without_file _ _ Hf), Ht. rewrite bind_print.
  unfold bind, while_true. rewrite done_loop_without_done; [reflexivity|].
  exact Hnd.
Qed.

(** *** What a chat request carries *)

Lemma chat_sends_one_request (config api_key model : pyval)
  (prompt task : string) (w : world) :
  getitem config "api_key" = Ok api_key ->
  getitem config "model" = Ok model ->
  exists v w',
    chat config prompt task w = Ret v w'
    /\ sent w' = (sent w ++ [chat_request api_key model prompt])%list.
Proof.
  intros Hk Hm. rewrite chat_after_try, (chat_try_sends _ _ _ _ _ _ Hk Hm).
  cbn zeta. destruct (http w _ _) as [e|r]; [eauto|].
  destruct (status_code r =? 200)%Z; [|eauto].
  destruct (json r) as [result|]; [|eauto].
  destruct (first_choice_content result); eauto.
Qed.

Lemma chat_sends_nothing (config : pyval) (prompt task : string) (w : world) :
  ~ populated config ->
  exists v w', chat config prompt task w = Ret v w' /\ sent w' = sent w.
Proof.
  intros Hn. rewrite chat_after_try. unfold chat_try, bind, lift.
  destruct (getitem config "api_key") as [api_key|e] eqn:Hk; [|eauto].
  destruct (getitem config "model") as [model|e] eqn:Hm; [|eauto].
  exfalso. apply Hn. exists api_key, model. split; assumption.
Qed.

Lemma analyze_prompt_contains (input : string) :
  PyStr.contains input (analyze_prompt input).
Proof.
  unfold analyze_prompt. do 5 apply contains_later. apply contains_here.
Qed.

Lemma install_prompt_contains (input : string) :
  PyStr.contains input (install_prompt input).
Proof.
  unfold install_prompt. apply contains_later. apply contains_here.
Qed.

(** X12: a call of [analyze_error] or [install_tool] sends exactly one
    request when the configuration holds both entries: the POST to
    [/chat/completions] built from the configured key, the configured
    model and the prompt, and the prompt contains the caller's text as
    it is.  Without both entries nothing is sent.  Either way no input is
    read and the configuration file is not touched. *)
Theorem chat_call_sends_one_request (config : pyval) (input : string) (w : world) :
  (forall api_key model,
      getitem config "api_key" = Ok api_key ->
      getitem config "model" = Ok model ->
      after (analyze_error config input w)
        (fun w' => sent w' = (sent w ++ [chat_request api_key model
                                           (analyze_prompt input)])%list)
      /\ after (install_tool config input w)
           (fun w' => sent w' = (sent w ++ [chat_request api_key model
                                              (install_prompt input)])%list))
  /\ (~ populated config ->
      after (analyze_error config input w) (fun w' => sent w' = sent w)
      /\ after (install_tool config input w) (fun w' => sent w' = sent w))
  /\ after (analyze_error config input w)
       (fun w' => stdin w' = stdin w /\ store w' = store w)
  /\ after (install_tool config input w)
       (fun w' => stdin w' = stdin w /\ store w' = store w)
  /\ PyStr.contains input (analyze_prompt input)
  /\ PyStr.contains input (install_prompt input).
Proof.
  split; [|split; [|split; [|split; [|split]]]].
  - intros api_key model Hk Hm. unfold analyze_error, install_tool. split.
    + destruct (chat_sends_one_request config api_key model (analyze_prompt input)
                  "analyze the error" w Hk Hm) as [v [w' [Hr Hs]]].
      rewrite Hr. exact Hs.
    + destruct (chat_sends_one_request config api_key model (install_prompt input)
                  "get installation instructions" w Hk Hm) as [v [w' [Hr Hs]]].
      rewrite Hr. exact Hs.
  - intros Hn. unfold analyze_error, install_tool. split.
    + destruct (chat_sends_nothing config (analyze_prompt input)
                  "analyze the error" w Hn) as [v [w' [Hr Hs]]].
      rewrite Hr. exact Hs.
    + destruct (chat_sends_nothing config (install_prompt input)
                  "get installation instructions" w Hn) as [v [w' [Hr Hs]]].
      rewrite Hr. exact Hs.
  - apply after_and.
    + apply (respects_chat (same stdin) (same_refl _) (same_trans _));
        intros; reflexivity.
    + apply (respects_chat (same store) (same_refl _) (same_trans _));
        intros; reflexivity.
  - apply after_and.
    + apply (respects_chat (same stdin) (same_refl _) (same_trans _));
        intros; reflexivity.
    + apply (respects_chat (same store) (same_refl _) (same_trans _));
        intros; reflexivity.
  - apply analyze_prompt_contains.
  - apply install_prompt_contains.
Qed.

(** X13: a 200 answer without a first choice is reported, not
    raised.  With an empty [choices] list the text returned ends in
    [list index out of range]; with no [choices] entry at all it ends in
    the quoted key. *)
Theorem answer_without_choices_is_reported
  (config api_key model : pyval) (input : string) (w : world)
  (r : response) (d : list (string * pyval)) :
  getitem config "api_key" = Ok api_key ->
  getitem config "model" = Ok model ->
  http w (length (sent w)) (chat_request api_key model (analyze_prompt input))
  = Responds r ->
  status_code r = 200%Z ->
  json r = Ok (PDict d) ->
  (lookup "choices" d = Some (PList []) ->
   returns (analyze_error config input w)
     (PStr "Error: Could not analyze the error due to an API issue: list index out of range"))
  /\ (lookup "choices" d = None ->
      returns (analyze_error config input w)
        (PStr "Error: Could not analyze the error due to an API issue: 'choices'")).
Proof.
  intros Hk Hm Hh Hs Hj. unfold analyze_error.
  split; intros Hc; rewrite chat_after_try, (chat_try_sends _ _ _ _ _ _ Hk Hm);
    cbn zeta; rewrite Hh, Hs, Hj; unfold first_choice_content;
    cbn [getitem]; rewrite Hc; eexists; reflexivity.
Qed.

(** *** What the setup writes *)

Lemma finish_setup_fresh (api_key model : pyval) (w w' : world) (config : pyval) :
  finish_setup (dict_set "model" model (dict_set "api_key" api_key [])) w
  = Ret config w' ->
  config = fresh_configuration api_key model
  /\ store w' = File (Json.dumps config).
Proof.
  intros H. apply finish_setup_result in H as [-> Hs]. split; [reflexivity|exact Hs].
Qed.

(** X14: a setup that completes writes a fresh configuration: the file
    then holds the serialization of the value returned, which has
    exactly three entries, the key, the model and the default
    monitoring settings; nothing of a previous file is kept.  From the
    wizard the key is a non-empty string; from the command line it is
    the key given. *)
Theorem setup_writes_a_fresh_configuration :
  (forall w config w',
      first_time_setup w = Ret config w' ->
      exists key model,
        key <> ""
        /\ config = fresh_configuration (PStr key) model
        /\ store w' = File (Json.dumps config))
  /\ (forall args w config w',
        setup_from_arguments args w = Ret config w' ->
        exists model,
          config = fresh_configuration (PStr (or_empty (arg_api_key args))) model
          /\ store w' = File (Json.dumps config)).
Proof.
  split.
  - intros w config w' H. unfold first_time_setup in H.
    do 4 (apply bind_ret in H as [? [? [_ H]]]).
    apply bind_ret in H as [key [w1 [Hkey H]]].
    apply bind_ret in H as [model [w2 [_ H]]].
    apply finish_setup_fresh in H as [-> Hs].
    exists key, model. split; [|split; [reflexivity|exact Hs]].
    unfold while_true in Hkey.
    now destruct (api_key_loop_accepts_validated _ _ _ _ Hkey) as [Hne _].
  - intros args w config w' H. unfold setup_from_arguments in H.
    apply bind_ret in H as [? [? [_ H]]].
    apply bind_ret in H as [model [w2 [_ H]]].
    apply finish_setup_fresh in H as [-> Hs].
    exists model. split; [reflexivity|exact Hs].
Qed.

(** X15: what the setup saved is what the next run loads.  Where the
    parser reads back the text the writer produced for the
    configuration, [load_config] after a completed setup returns that
    configuration and does not ask anything again. *)
Theorem load_config_after_setup
  (json_loads : string -> attempt pyval) (w w' : world) (config : pyval) :
  first_time_setup w = Ret config w' ->
  json_loads (Json.dumps config) = Ok config ->
  load_config json_loads w'
  = Ret config (say (Log INFO [Lit "Configuration loaded successfully."]) w').
Proof.
  intros H Hj. unfold first_time_setup in H.
  do 4 (apply bind_ret in H as [? [? [_ H]]]).
  apply bind_ret in H as [key [w1 [_ H]]].
  apply bind_ret in H as [model [w2 [_ H]]].
  apply finish_setup_result in H as [_ Hs].
  exact (load_config_parsed json_loads w' _ config Hs Hj).
Qed.

Lemma select_model_sends_one_request (api_key : pyval) (w : world) :
  after (select_model api_key w)
    (fun w' => sent w' = (sent w ++ [models_request api_key])%list).
Proof.
  unfold select_model. rewrite bind_print. unfold bind at 1.
  destruct (models_sends_one_request api_key
              (say (Stdout [Lit PyStr.nl; Lit "Fetching available models..."]) w))
    as [models [w1 [Hm [Hs1 _]]]].
  rewrite Hm. rewrite bind_print. unfold bind.
  destruct (print_models_returns models 1
              (say (Stdout [Lit PyStr.nl; Lit "Available Models:"]) w1))
    as [w2 [Hp [_ [Hs2 _]]]].
  rewrite Hp.
  assert (Hl : respects (same sent) (while_true (model_round models) tt)).
  { apply respects_while_true; [exact (same_trans _)|]. intros s'.
    apply respects_model_round;
      first [exact (same_refl _) | exact (same_trans _) | (intros; reflexivity)]. }
  specialize (Hl w2).
  destruct (while_true (model_round models) tt w2); cbn in *; try exact I;
    unfold same in Hl; rewrite Hl, Hs2; cbn; rewrite Hs1; reflexivity.
Qed.

Lemma bind_bind {A B C : Type} (m : M A) (f : A -> M B) (k : B -> M C)
  (w : world) :
  bind (bind m f) k w = bind m (fun a => bind (f a) k) w.
Proof. unfold bind. destruct (m w); reflexivity. Qed.

Lemma bind_ret_l {A B : Type} (a : A) (k : A -> M B) (w : world) :
  bind (ret a) k w = k a w.
Proof. reflexivity. Qed.

(** X16: the key given on the command line is never checked.  The
    [setup] branch with [--api-key] sends no request at all when
    [--model] is given too, and otherwise only the one that lists the
    models, with that key: never a request to [/auth/key].  With
    [--model] it reads no input either. *)
Theorem command_line_key_is_not_validated (args : namespace) (w : world) :
  after (setup_from_arguments args w)
    (fun w' =>
       sent w'
       = (sent w ++ (if given (arg_model args) then []
                     else [models_request (PStr (or_empty (arg_api_key args)))]))%list)
  /\ (given (arg_model args) = true ->
      after (setup_from_arguments args w) (fun w' => stdin w' = stdin w)).
Proof.
  assert (Hfin : forall items w0,
             after (finish_setup items w0)
               (fun w' => sent w' = sent w0 /\ stdin w' = stdin w0)).
  { intros items w0. apply after_and.
    - apply (respects_finish_setup (same sent) (same_refl _) (same_trans _));
        intros; reflexivity.
    - apply (respects_finish_setup (same stdin) (same_refl _) (same_trans _));
        intros; reflexivity. }
  unfold setup_from_arguments. rewrite !bind_print.
  destruct (given (arg_model args)) eqn:Hm.
  - cbv iota. rewrite bind_bind, bind_print, bind_ret_l.
    destruct (finish_setup _ _) as [c w1|e w1|] eqn:E;
      [| |cbn; auto];
      (match type of E with
       | finish_setup ?i ?x = _ => pose proof (Hfin i x) as H; rewrite E in H
       end;
       destruct H as [H1 H2]; cbn [after]; cbn in H1, H2; split;
       [ rewrite H1; now rewrite app_nil_r | intros _; exact H2 ]).
  - split; [|discriminate]. cbv iota. unfold bind.
    pose proof (select_model_sends_one_request
                  (PStr (or_empty (arg_api_key args)))
                  (say (Stdout [Lit "Using provided API key from command line"]) w))
      as Hsel.
    destruct (select_model _ _) as [model w1|e w1|]; cbn [after] in *;
      [|exact Hsel|exact I].
    destruct (finish_setup _ _) as [c w2|e w2|] eqn:E; [| |exact I];
      (match type of E with
       | finish_setup ?i ?x = _ => pose proof (Hfin i x) as H; rewrite E in H
       end;
       destruct H as [H1 _]; cbn [after] in *; now rewrite H1, Hsel).
Qed.

(** *** Which commands write the configuration *)

Lemma gives_ret {A : Type} (c : A) : gives c (ret c).
Proof. intros w. reflexivity. Qed.

Lemma gives_bind {A B : Type} (c : B) (m : M A) (k : A -> M B) :
  (forall a, gives c (k a)) -> gives c (bind m k).
Proof.
  intros Hk w. unfold bind. destruct (m w) as [a w1| |]; [|exact I|exact I].
  apply Hk.
Qed.

Section RespectCommands.

Variable R : world -> world -> Prop.
Hypothesis R_refl : forall w, R w w.
Hypothesis R_trans : forall w1 w2 w3, R w1 w2 -> R w2 w3 -> R w1 w3.
Hypothesis R_out : forall w l, R w (set_out l w).
Hypothesis R_sent : forall w l, R w (set_sent l w).
Hypothesis R_stdin : forall w l, R w (set_stdin l w).

Lemma execute_command_keeps (config : pyval) (args : namespace) :
  command_is args "setup" = false ->
  respects R (execute_command config args).
Proof.
  intros Hc.
  unfold execute_command, analyze_error, install_tool, print, prompt.
  rewrite Hc.
  destruct (command_is args "analyze");
    [|destruct (command_is args "install");
      [|destruct (command_is args "monitor")]];
    repeat first
      [ apply (respects_chat R R_refl R_trans R_out R_sent)
      | apply (respects_read_error_text R R_refl R_trans R_out R_stdin)
      | apply (respects_start_monitoring R R_refl R_trans R_out)
      | apply (respects_emit R R_out)
      | apply (respects_ret R R_refl)
      | apply (respects_readline R R_refl R_stdin)
      | apply (respects_bind R R_trans); [|intros ?]
      | match goal with |- respects R (if ?b then _ else _) => destruct b end ].
Qed.

End RespectCommands.

Lemma execute_command_gives_config (config : pyval) (args : namespace) :
  command_is args "setup" = false ->
  gives config (execute_command config args).
Proof.
  intros Hc. unfold execute_command. rewrite Hc.
  destruct (command_is args "analyze");
    [|destruct (command_is args "install");
      [|destruct (command_is args "monitor")]];
    repeat first [ apply gives_bind; intros ? | apply gives_ret ].
Qed.

(** X17: only [setup] writes the configuration.  Under any other
    command, known or not, [execute_command] leaves the configuration
    file as it was, however the command ends, and the configuration of
    the agent is afterwards the one it had. *)
Theorem only_setup_writes_the_configuration
  (config : pyval) (args : namespace) (w : world) :
  command_is args "setup" = false ->
  match execute_command config args w with
  | Ret config' w' => config' = config /\ store w' = store w
  | Raise _ w' => store w' = store w
  | Diverge => True
  end.
Proof.
  intros Hc.
  pose proof (execute_command_gives_config config args Hc w) as Hg.
  assert (Hk : respects (same store) (execute_command config args)).
  { apply execute_command_keeps;
      first [exact (same_refl _) | exact (same_trans _) | exact Hc
            | (intros; reflexivity)]. }
  specialize (Hk w).
  destruct (execute_command config args w); cbn in *; auto.
Qed.

(** *** The properties above on concrete inputs *)

Lemma monitoring_is_off_unless_enabled_witness :
  start_monitoring (PDict Demo.monitoring_off) (Sample.world_of [] NoFile Demo.ok_remote)
  = Ret tt
      (say (Log INFO [Lit "Error monitoring is disabled in configuration."])
         (say (Log INFO [Lit "Starting error monitoring..."])
            (Sample.world_of [] NoFile Demo.ok_remote))).
Proof.
  exact (monitoring_is_off_unless_enabled Demo.monitoring_off
           [("enabled", PBool false); ("scan_interval", PInt 60)]
           (Sample.world_of [] NoFile Demo.ok_remote) eq_refl).
Defined.

Lemma monitor_raises_on_malformed_configuration_witness :
  main (Demo.loads [("[]", PList [])]) (Demo.parser (Demo.command_line "monitor"))
    ["monitor"] (Sample.world_of [] (File "[]") Demo.ok_remote)
  = Exits 1
      (say (Traceback (no_attribute_get (PList [])))
         (say (Log INFO [Lit "Starting error monitoring..."])
            (say (Log INFO [Lit "Configuration loaded successfully."])
               (Sample.world_of [] (File "[]") Demo.ok_remote)))).
Proof.
  apply (proj2 (monitor_raises_on_malformed_configuration
                  (Demo.loads [("[]", PList [])])
                  (Demo.parser (Demo.command_line "monitor"))
                  ["monitor"] (Demo.command_line "monitor") "[]"
                  (PList []) (PList [])
                  (Sample.world_of [] (File "[]") Demo.ok_remote)
                  eq_refl eq_refl eq_refl eq_refl eq_refl (or_introl eq_refl))).
Defined.

Lemma api_key_loop_returns_a_validated_key_witness :
  exists w',
    while_true api_key_round tt
      (Sample.world_of ["   "; "  sk-good " ++ PyStr.nl] NoFile Demo.ok_remote)
    = Ret "sk-good" w'
    /\ "sk-good" <> ""
    /\ just_accepted "sk-good" w'.
Proof.
  eexists. split; [vm_compute; reflexivity|].
  destruct (api_key_loop_returns_a_validated_key
              (Sample.world_of ["   "; "  sk-good " ++ PyStr.nl] NoFile Demo.ok_remote)
              _ "sk-good" ltac:(vm_compute; reflexivity)) as [H1 [_ H2]].
  split; [exact H1|exact H2].
Defined.

Lemma no_configuration_and_no_input_never_exits_witness :
  main Sample.json_loads (Demo.parser (Demo.command_line "install")) ["install"]
    (Sample.world_of ["   "; PyStr.nl] NoDir Demo.ok_remote)
  = NeverExits.
Proof.
  apply (no_configuration_and_no_input_never_exits Sample.json_loads
           (Demo.parser (Demo.command_line "install")) ["install"]
           (Demo.command_line "install")
           (Sample.world_of ["   "; PyStr.nl] NoDir Demo.ok_remote)
           eq_refl eq_refl (or_introl eq_refl)).
  repeat constructor.
Defined.

Lemma models_list_is_never_empty_witness :
  [PStr "a/one"; PStr "b/two"] <> []
  /\ Forall (fun id => truthy id = true) [PStr "a/one"; PStr "b/two"].
Proof.
  eapply (models_list_is_never_empty (PStr "sk-or-1")
            (Sample.world_of [] NoFile
               (Sample.always
                  (Sample.answer 200 (Ok (Sample.listing Sample.entries)))))).
  vm_compute. reflexivity.
Defined.

Lemma one_malformed_entry_gives_the_fallback_witness :
  exists bad,
    In bad [PDict [("id", PStr "a/one")]; PStr "b/two"]
    /\ is_dict bad = false
    /\ get_available_models (PStr "sk-or-1")
         (Sample.world_of [] NoFile
            (Sample.always
               (Sample.answer 200
                  (Ok (Sample.listing [PDict [("id", PStr "a/one")]; PStr "b/two"])))))
       = Ret fallback_models
           (say (Log ERROR [Lit "Error fetching models: ";
                            Fmt (PStr (exn_msg (no_attribute_get bad)))])
              (set_sent [models_request (PStr "sk-or-1")]
                 (Sample.world_of [] NoFile
                    (Sample.always
                       (Sample.answer 200
                          (Ok (Sample.listing [PDict [("id", PStr "a/one")];
                                               PStr "b/two"]))))))).
Proof.
  apply (one_malformed_entry_gives_the_fallback (PStr "sk-or-1")
           (Sample.world_of [] NoFile
              (Sample.always
                 (Sample.answer 200
                    (Ok (Sample.listing [PDict [("id", PStr "a/one")]; PStr "b/two"])))))
           (mkResponse 200 ""
              (Ok (Sample.listing [PDict [("id", PStr "a/one")]; PStr "b/two"])))
           (Sample.listing [PDict [("id", PStr "a/one")]; PStr "b/two"])
           (PList [PDict [("id", PStr "a/one")]; PStr "b/two"])
           [PDict [("id", PStr "a/one")]; PStr "b/two"]
           eq_refl eq_refl eq_refl eq_refl eq_refl eq_refl).
Defined.

Lemma empty_answer_selects_the_empty_model_witness :
  exists w',
    select_model (PStr "sk-or-1") (Sample.world_of ["  " ++ PyStr.nl] NoFile Demo.ok_remote)
    = Ret (PStr "") w'.
Proof.
  apply (empty_answer_selects_the_empty_model (PStr "sk-or-1")
           (Sample.world_of ["  " ++ PyStr.nl] NoFile Demo.ok_remote)).
  right. exists ("  " ++ PyStr.nl), []. split; reflexivity.
Defined.

Lemma error_text_file_before_text_witness :
  read_error_text
    (Demo.analyze_args (Some "/var/log/app.log") (Some "typed text"))
    (Demo.with_logs [])
  = Ret "disk full" (Demo.with_logs [])
  /\ read_error_text (Demo.analyze_args (Some "/root/secret.log") (Some "typed text"))
       (Demo.with_logs [])
     = Raise Demo.permission_denied (Demo.with_logs [])
  /\ read_error_text (Demo.analyze_args (Some "/no/such/file") (Some "typed text"))
       (Demo.with_logs [])
     = Ret "typed text" (Demo.with_logs []).
Proof.
  split; [|split].
  - apply (proj1 (error_text_file_before_text
                    (Demo.analyze_args (Some "/var/log/app.log") (Some "typed text"))
                    (Demo.with_logs []))); reflexivity.
  - apply (proj1 (proj2 (error_text_file_before_text
                    (Demo.analyze_args (Some "/root/secret.log") (Some "typed text"))
                    (Demo.with_logs [])))); reflexivity.
  - apply (proj2 (proj2 (error_text_file_before_text
                    (Demo.analyze_args (Some "/no/such/file") (Some "typed text"))
                    (Demo.with_logs [])))); [right|]; reflexivity.
Defined.

Lemma error_text_is_read_up_to_DONE_witness :
  exists w',
    read_error_text (Demo.analyze_args None None)
      (Demo.with_logs ["Traceback:" ++ PyStr.nl; "  KeyError: 'x' " ++ PyStr.nl;
                       " DONE" ++ PyStr.nl; "left over" ++ PyStr.nl])
    = Ret ("Traceback:" ++ PyStr.nl ++ "KeyError: 'x'") w'
    /\ stdin w' = ["left over" ++ PyStr.nl]
    /\ sent w' = []
    /\ store w' = NoFile.
Proof.
  apply (error_text_is_read_up_to_DONE (Demo.analyze_args None None)
           ["Traceback:" ++ PyStr.nl; "  KeyError: 'x' " ++ PyStr.nl]
           (" DONE" ++ PyStr.nl) ["left over" ++ PyStr.nl]
           (Demo.with_logs ["Traceback:" ++ PyStr.nl; "  KeyError: 'x' " ++ PyStr.nl;
                            " DONE" ++ PyStr.nl; "left over" ++ PyStr.nl])).
  - split; [left|]; reflexivity.
  - reflexivity.
  - repeat constructor; vm_compute; discriminate.
  - reflexivity.
Defined.

Lemma analyze_without_DONE_never_finishes_witness :
  execute_command Sample.config (Demo.analyze_args None None)
    (Demo.with_logs ["done" ++ PyStr.nl; "DONE." ++ PyStr.nl])
  = Diverge.
Proof.
  apply (analyze_without_DONE_never_finishes Sample.config
           (Demo.analyze_args None None)
           (Demo.with_logs ["done" ++ PyStr.nl; "DONE." ++ PyStr.nl])).
  - reflexivity.
  - split; [left|]; reflexivity.
  - repeat constructor; vm_compute; discriminate.
Defined.

Lemma chat_call_sends_one_request_witness :
  after (analyze_error Sample.config "boom" (Sample.world_of [] NoFile Demo.ok_remote))
    (fun w' =>
       sent w' = [chat_request (PStr "sk-or-1") (PStr "openai/gpt-4o")
                    (analyze_prompt "boom")])
  /\ after (install_tool (PDict [("api_key", PStr "sk-or-1")]) "terraform"
              (Sample.world_of [] NoFile Demo.ok_remote))
       (fun w' => sent w' = []).
Proof.
  split.
  - apply (proj1 (chat_call_sends_one_request Sample.config "boom"
                    (Sample.world_of [] NoFile Demo.ok_remote))
             (PStr "sk-or-1") (PStr "openai/gpt-4o") eq_refl eq_refl).
  - apply (proj1 (proj2 (chat_call_sends_one_request
                           (PDict [("api_key", PStr "sk-or-1")]) "terraform"
                           (Sample.world_of [] NoFile Demo.ok_remote)))).
    intros [api_key [model [_ H]]]. discriminate.
Defined.

Lemma answer_without_choices_is_reported_witness :
  returns
    (analyze_error Sample.config "boom"
       (Sample.world_of [] NoFile
          (Sample.always (Sample.answer 200 (Ok (PDict [("choices", PList [])]))))))
    (PStr "Error: Could not analyze the error due to an API issue: list index out of range")
  /\ returns
       (analyze_error Sample.config "boom"
          (Sample.world_of [] NoFile
             (Sample.always (Sample.answer 200 (Ok (PDict [("error", PStr "busy")]))))))
       (PStr "Error: Could not analyze the error due to an API issue: 'choices'").
Proof.
  split.
  - apply (proj1 (answer_without_choices_is_reported Sample.config
                    (PStr "sk-or-1") (PStr "openai/gpt-4o") "boom"
                    (Sample.world_of [] NoFile
                       (Sample.always
                          (Sample.answer 200 (Ok (PDict [("choices", PList [])])))))
                    (mkResponse 200 "" (Ok (PDict [("choices", PList [])])))
                    [("choices", PList [])]
                    eq_refl eq_refl eq_refl eq_refl eq_refl)).
    reflexivity.
  - apply (proj2 (answer_without_choices_is_reported Sample.config
                    (PStr "sk-or-1") (PStr "openai/gpt-4o") "boom"
                    (Sample.world_of [] NoFile
                       (Sample.always
                          (Sample.answer 200 (Ok (PDict [("error", PStr "busy")])))))
                    (mkResponse 200 "" (Ok (PDict [("error", PStr "busy")])))
                    [("error", PStr "busy")]
                    eq_refl eq_refl eq_refl eq_refl eq_refl)).
    reflexivity.
Defined.

Lemma setup_writes_a_fresh_configuration_witness :
  exists w',
    first_time_setup Demo.wizard_world = Ret Demo.wizard_result w'
    /\ exists key model,
         key <> ""
         /\ Demo.wizard_result = fresh_configuration (PStr key) model
         /\ store w' = File (Json.dumps Demo.wizard_result).
Proof.
  eexists. split; [vm_compute; reflexivity|].
  apply (proj1 setup_writes_a_fresh_configuration Demo.wizard_world
           Demo.wizard_result).
  vm_compute. reflexivity.
Defined.

Lemma load_config_after_setup_witness :
  exists w',
    first_time_setup Demo.wizard_world = Ret Demo.wizard_result w'
    /\ load_config
         (Demo.loads [(Json.dumps Demo.wizard_result, Demo.wizard_result)]) w'
       = Ret Demo.wizard_result
           (say (Log INFO [Lit "Configuration loaded successfully."]) w').
Proof.
  eexists. split; [vm_compute; reflexivity|].
  apply (load_config_after_setup
           (Demo.loads [(Json.dumps Demo.wizard_result, Demo.wizard_result)])
           Demo.wizard_world).
  - vm_compute. reflexivity.
  - vm_compute. reflexivity.
Defined.

Lemma command_line_key_is_not_validated_witness :
  after (setup_from_arguments (Demo.setup_args (Some "sk-cli") (Some "m/one"))
           (Sample.world_of ["unread"] NoFile Demo.ok_remote))
    (fun w' => stdin w' = ["unread"])
  /\ after (setup_from_arguments (Demo.setup_args (Some "sk-cli") None)
              (Sample.world_of ["1"] NoFile Demo.ok_remote))
       (fun w' => sent w' = [models_request (PStr "sk-cli")]).
Proof.
  split.
  - apply (proj2 (command_line_key_is_not_validated
                    (Demo.setup_args (Some "sk-cli") (Some "m/one"))
                    (Sample.world_of ["unread"] NoFile Demo.ok_remote))).
    reflexivity.
  - apply (proj1 (command_line_key_is_not_validated
                    (Demo.setup_args (Some "sk-cli") None)
                    (Sample.world_of ["1"] NoFile Demo.ok_remote))).
Defined.

Lemma only_setup_writes_the_configuration_witness :
  match execute_command Sample.config (Demo.command_line "install")
          (Sample.world_of ["terraform" ++ PyStr.nl] (File "{}") Demo.ok_remote) with
  | Ret config' w' => config' = Sample.config /\ store w' = File "{}"
  | Raise _ w' => store w' = File "{}"
  | Diverge => True
  end.
Proof.
  apply (only_setup_writes_the_configuration Sample.config
           (Demo.command_line "install")
           (Sample.world_of ["terraform" ++ PyStr.nl] (File "{}") Demo.ok_remote)).
  reflexivity.
Defined.
